(** * MegatronCLIPModel: the training-loop orchestration of
    [nemo/collections/multimodal/models/clip/megatron_clip_models.py]

    A shallow embedding of the orchestration layer of [MegatronCLIPModel]:
    the constructor's configuration guards, the schedule selector, the batch
    partitioner, the gradient-synchronisation protocol of [training_step],
    validation averaging and the per-virtual-stage checkpoint hooks.

    Conventions.
    - A Python call that may raise is a [Result]: [Ok v] or [Raise e].
    - [cfg.get(key, default)] is a record field of type [option _]; [None]
      is what [cfg.get(key, None)] returns for an absent (or null) key.
    - Collaborators that live outside this file of the repository (apex's
      [parallel_state], the pipeline schedules, torch's collectives and
      [load_state_dict], the optimizer) are either recorded as events or taken
      as section variables. *)

From Stdlib Require Import ZArith QArith Qcanon.
From stdpp Require Import base tactics option list gmap strings pretty fin_maps.

Local Open Scope Z_scope.

(** ** Python exceptions and results *)

(** What a [ValueError] of this file complains about. *)
Inductive ValueProblem :=
| accumulate_grad_batches_must_equal_1
| virtual_pipeline_requires_megatron_amp_O2
| precision_must_be_32_16_bf16
| unpack_length_mismatch
| shapes_not_aligned.

Inductive Exception :=
| ImportError
| ValueError (why : ValueProblem)
| NotImplementedError (msg : string)
| KeyError (key : string)
| IndexError
| TypeError
| ZeroDivisionError
| RuntimeError (msg : string).

Inductive Result (A : Type) :=
| Ok (a : A)
| Raise (e : Exception).
Arguments Ok {A} a.
Arguments Raise {A} e.

#[global] Instance result_ret : MRet Result := λ A a, Ok a.
#[global] Instance result_bind : MBind Result := λ A B k r,
  match r with
  | Ok a => k a
  | Raise e => Raise e
  end.

(** [if cond: raise e] *)
Definition raise_if (cond : bool) (e : Exception) : Result unit :=
  if cond then Raise e else Ok tt.

(** A callable all of whose calls return. *)
Definition returns {A B} (f : A → Result B) : Prop := ∀ a, ∃ b, f a = Ok b.

(** ** Configuration *)

(** The values [trainer.precision] / [cfg.precision] can hold. *)
Inductive PrecisionValue :=
| PInt (n : Z)
| PStr (s : string).

Inductive Dtype := torch_float | torch_half | torch_bfloat16.

(** The options of [cfg] read by the orchestration code. *)
Record Cfg := {
  pipeline_model_parallel_size : option Z;
  virtual_pipeline_model_parallel_size : option Z;
  tensor_model_parallel_size : option Z;
  sequence_parallel : option bool;
  sync_batch_comm : option bool;
  megatron_amp_O2 : option bool;
  precision : PrecisionValue;
  micro_batch_size : Z;
  global_batch_size : Z;
}.

(** [cfg.get(key, default)] *)
Definition get {A} (field : option A) (default : A) : A :=
  match field with
  | Some v => v
  | None => default
  end.

(** Python truthiness of the result of [cfg.get(key, None)] on an integer
    option: [None] and [0] are falsy. *)
Definition truthy (v : option Z) : bool :=
  match v with
  | None => false
  | Some n => negb (n =? 0)
  end.

(** [v is not None] *)
Definition is_not_None {A} (v : option A) : bool :=
  match v with
  | None => false
  | Some _ => true
  end.

Record Trainer := {
  accumulate_grad_batches : Z;
  trainer_precision : PrecisionValue;
}.

(** ** The model object

    [self.model] is either one module or, under interleaved pipelining, the
    list of virtual-stage modules returned by [build_model];
    [isinstance(self.model, list)] is a match on the constructor. *)
Inductive Model (M : Type) :=
| Single (m : M)
| Stages (ms : list M).
Arguments Single {M} m.
Arguments Stages {M} ms.

(** ** Construction: [MegatronCLIPModel.__init__] *)
Module Construction.

(** What the constructor reads from outside [cfg]: whether apex was
    imported, the outcome of the base-class constructor, the trainer and
    the list [build_model] returns. *)
Record Env (M : Type) := {
  HAVE_APEX : bool;
  super_init : Result unit;
  trainer : Trainer;
  build_model : list M;
}.
Arguments HAVE_APEX {M} _.
Arguments super_init {M} _.
Arguments trainer {M} _.
Arguments build_model {M} _.

(** The attributes of the constructed object used later on. *)
Record Built (M : Type) := {
  megatron_amp_o2 : bool;
  model : Model M;
  autocast_dtype : Dtype;
}.
Arguments megatron_amp_o2 {M} _.
Arguments model {M} _.
Arguments autocast_dtype {M} _.

Definition _validate_trainer (t : Trainer) : Result unit :=
  raise_if (1 <? accumulate_grad_batches t)
           (ValueError accumulate_grad_batches_must_equal_1).

Definition select_autocast_dtype (p : PrecisionValue) : Result Dtype :=
  match p with
  | PInt 32 => Ok torch_float
  | PInt 16 => Ok torch_half
  | PStr "bf16" => Ok torch_bfloat16
  | _ => Raise (ValueError precision_must_be_32_16_bf16)
  end.

Section Init.
Context {M : Type}.
(** [Float16Module(module=module, precision=cfg.precision)] *)
Variable Float16Module : M → M.

Definition init (cfg : Cfg) (env : Env M) : Result (Built M) :=
  raise_if (negb (HAVE_APEX env)) ImportError;;
  super_init env;;
  _validate_trainer (trainer env);;
  let o2 := get (megatron_amp_O2 cfg) false in
  raise_if (negb o2 && truthy (virtual_pipeline_model_parallel_size cfg))
           (ValueError virtual_pipeline_requires_megatron_amp_O2);;
  let built := build_model env in
  model ← match virtual_pipeline_model_parallel_size cfg with
           | None => match built with
                     | m :: _ => Ok (Single m)
                     | [] => Raise IndexError
                     end
           | Some _ => Ok (Stages built)
           end;
  let model := if o2 then
                 match model with
                 | Stages ms => Stages (Float16Module <$> ms)
                 | Single m => Single (Float16Module m)
                 end
               else model in
  dtype ← select_autocast_dtype (trainer_precision (trainer env));
  Ok {| megatron_amp_o2 := o2; model := model; autocast_dtype := dtype |}.
End Init.

End Construction.

(** ** Schedule selection: [_get_fwd_bwd_function] *)
Module Schedule.

Inductive FwdBwdFunction :=
| forward_backward_no_pipelining
| forward_backward_pipelining_without_interleaving
| _forward_backward_pipelining_with_interleaving.

Definition _get_fwd_bwd_function (cfg : Cfg) : FwdBwdFunction :=
  if 1 <? get (pipeline_model_parallel_size cfg) 1 then
    if is_not_None (virtual_pipeline_model_parallel_size cfg)
    then _forward_backward_pipelining_with_interleaving
    else forward_backward_pipelining_without_interleaving
  else forward_backward_no_pipelining.

End Schedule.

(** ** apex's [parallel_state]

    The process-group topology is an external library.  Its queries are
    modelled by what they return for a rank: the first pipeline stage is
    pipeline rank 0, the last one is rank [world_size - 1], and unless
    [ignore_virtual] is passed a rank hosting several virtual stages is on
    the first (last) stage only while its virtual rank is the first (last)
    one.  The virtual rank is the mutable global that
    [set_virtual_pipeline_model_parallel_rank] writes. *)
Module parallel_state.

Record t := {
  pipeline_model_parallel_rank : Z;
  pipeline_model_parallel_world_size : positive;
  virtual_pipeline_model_parallel_rank : option Z;
  virtual_pipeline_model_parallel_world_size : option Z;
  data_parallel_world_size : positive;
}.

Definition get_pipeline_model_parallel_world_size (ps : t) : Z :=
  Z.pos (pipeline_model_parallel_world_size ps).

Definition get_data_parallel_world_size (ps : t) : Z :=
  Z.pos (data_parallel_world_size ps).

Definition is_pipeline_first_stage (ignore_virtual : bool) (ps : t) : bool :=
  if negb ignore_virtual
     && is_not_None (virtual_pipeline_model_parallel_world_size ps)
     && negb (bool_decide (virtual_pipeline_model_parallel_rank ps = Some 0))
  then false
  else pipeline_model_parallel_rank ps =? 0.

Definition is_pipeline_last_stage (ignore_virtual : bool) (ps : t) : bool :=
  if negb ignore_virtual
     && match virtual_pipeline_model_parallel_world_size ps with
        | Some vws =>
            negb (bool_decide (virtual_pipeline_model_parallel_rank ps = Some (vws - 1)))
        | None => false
        end
  then false
  else pipeline_model_parallel_rank ps =? get_pipeline_model_parallel_world_size ps - 1.


End parallel_state.

(** ** Batch partitioning: [process_global_batch] and the forward callback *)
Module Batch.

(** A tensor, as far as the partitioner looks at it: its leading
    dimension [shape[0]] and an identity for its contents. *)
Record Tensor := {
  shape0 : Z;
  storage : nat;
}.

(** The global batch: the mapping with keys ["images"] and ["captions"]. *)
Record GlobalBatch := {
  images : Tensor;
  captions : Tensor;
}.

Definition process_global_batch (ps : parallel_state.t)
    (global_batch : GlobalBatch) (global_batch_size : option Z)
  : Result (list Tensor) :=
  let images := images global_batch in
  let captions := captions global_batch in
  let expected_batch_size :=
    match global_batch_size with
    | Some gbs => Some (gbs `div` parallel_state.get_data_parallel_world_size ps)
    | None => None
    end in
  let current_batch_size := shape0 images in
  raise_if match expected_batch_size with
           | Some expected => current_batch_size <? expected
           | None => false
           end
           (NotImplementedError "Please turn on drop_last.");;
  Ok [images; captions].

(** [batch_for_pipeline] as [training_step] computes it: the partitioned
    batch on the ranks of the first and of the last pipeline stage, [None]
    on the intermediate ones.  No expected size is passed. *)
Definition training_batch_for_pipeline (ps : parallel_state.t)
    (batch : GlobalBatch) : Result (option (list Tensor)) :=
  if parallel_state.is_pipeline_first_stage true ps
     || parallel_state.is_pipeline_last_stage true ps
  then b ← process_global_batch ps batch None; Ok (Some b)
  else Ok None.

(** [batch_for_pipeline] as [validation_step] (and [test_step]) computes
    it: every rank partitions, with the configured global batch size. *)
Definition validation_batch_for_pipeline (cfg : Cfg) (ps : parallel_state.t)
    (batch : GlobalBatch) : Result (option (list Tensor)) :=
  b ← process_global_batch ps batch (Some (global_batch_size cfg)); Ok (Some b).

(** The inputs [fwd_output_and_loss_func] hands to [model(images, captions)]
    for one micro-batch.  [.cuda()] keeps the tensor's contents. *)
Definition fwd_output_and_loss_func (ps : parallel_state.t)
    (batch : option (list Tensor)) : Result (option Tensor * option Tensor) :=
  if parallel_state.get_pipeline_model_parallel_world_size ps =? 1 then
    match batch with
    | None => Raise TypeError
    | Some [images; captions] => Ok (Some images, Some captions)
    | Some _ => Raise (ValueError unpack_length_mismatch)
    end
  else if parallel_state.is_pipeline_first_stage false ps then
    match batch with
    | None => Raise TypeError
    | Some (images :: captions :: _) => Ok (Some images, Some captions)
    | Some _ => Raise IndexError
    end
  else Ok (None, None).

End Batch.

(** ** Gradient synchronisation: [training_step] and
    [allreduce_sequence_parallel_gradients] *)
Module GradSync.
Import Schedule Batch.

(** The process group a collective runs over. *)
Inductive Group := tensor_model_parallel_group.

(** The four ways [training_step] builds [custom_sync_context_handler]. *)
Inductive SyncContextHandler :=
| optimizer_no_sync_greedy_grad_copy (greedy_grad_copy : bool)
| optimizer_no_sync.

(** The keyword arguments [training_step] passes to the schedule
    ([tensor_shape] is always [None]). *)
Record ScheduleArgs := {
  batch : option (list Tensor);
  forward_only : bool;
  dtype : Dtype;
  grad_scaler : bool;
  custom_sync_context_handler : option SyncContextHandler;
  sequence_parallel_enabled_arg : bool;
  sync_batch_comm_arg : bool;
}.

(** What [torch.cat] raises when handed no tensor. *)
Definition empty_tensor_list : Exception :=
  RuntimeError "torch.cat(): expected a non-empty list of Tensors".

Section Gradients.
(** The element type of gradient buffers. *)
Context {T : Type}.

(** A parameter: its [sequence_parallel_enabled] attribute (absent reads
    as [False]) and the flat contents of [param.grad] and
    [param.main_grad]. *)
Record Param := {
  sequence_parallel_enabled : bool;
  grad : list T;
  main_grad : list T;
}.

(** A torch module, seen through [module.parameters()]. *)
Abbreviation TorchModule := (list Param).

Record Self := {
  cfg : Cfg;
  with_distributed_adam : bool;
  megatron_amp_o2 : bool;
  model : Model TorchModule;
  autocast_dtype : Dtype;
}.

(** The calls [training_step] makes on its collaborators, in order. *)
Inductive Call :=
| call_optimizer_zero_grad
| call_fwd_bwd_function (f : FwdBwdFunction) (args : ScheduleArgs)
| call_all_reduce (coalesced : list T) (group : Group)
| call_optimizer_allreduce_main_grads
| call_allreduce_gradients
| call_broadcast_from_last_rank (loss_mean : Qc)
| call_log (loss_mean : Qc).

(** A step that calls collaborators: the calls it made, in order, and
    how it ended, with a value or with the exception that cut it
    short. *)
Definition Traced (A : Type) : Type := list Call * Result A.
Definition calls {A} (step : Traced A) : list Call := step.1.
Definition result {A} (step : Traced A) : Result A := step.2.
Definition traced_ret {A} (a : A) : Traced A := ([], Ok a).
Definition traced_bind {A B} (step : Traced A) (k : A → Traced B) : Traced B :=
  match step.2 with
  | Ok a => (step.1 ++ (k a).1, (k a).2)
  | Raise e => (step.1, Raise e)
  end.
(** A call on a collaborator is recorded, then ends as the collaborator
    does; code of the class itself leaves no record. *)
Definition call {A} (c : Call) (outcome : Result A) : Traced A := ([c], outcome).
Definition no_call {A} (outcome : Result A) : Traced A := ([], outcome).
Local Notation "x ⟵ y ; z" := (traced_bind y (λ x, z))
  (at level 20, y at level 100, z at level 200, only parsing).

(** [grad = param.main_grad if self.megatron_amp_o2 else param.grad] *)
Definition selected_grad (o2 : bool) (p : Param) : list T :=
  if o2 then main_grad p else grad p.

Fixpoint _append_module_grads (o2 : bool) (module : TorchModule)
    (grads : list (list T)) : list (list T) :=
  match module with
  | [] => grads
  | param :: rest =>
      _append_module_grads o2 rest
        (if sequence_parallel_enabled param
         then grads ++ [selected_grad o2 param]
         else grads)
  end.

(** The list [grads] once the modules have been walked. *)
Definition collect_grads (o2 : bool) (model : Model TorchModule)
  : list (list T) :=
  match model with
  | Stages ms => foldl (λ grads module, _append_module_grads o2 module grads) [] ms
  | Single m => _append_module_grads o2 m []
  end.

(** [torch._utils._flatten_dense_tensors]: one contiguous buffer; the
    concatenation behind it raises on an empty list. *)
Definition _flatten_dense_tensors (tensors : list (list T))
  : Result (list T) :=
  match tensors with
  | [] => Raise empty_tensor_list
  | _ => Ok (concat tensors)
  end.

(** [torch._utils._unflatten_dense_tensors]: views of [flat], one per
    tensor and of its size, taken at increasing offsets. *)
Fixpoint unflatten_from (offset : nat) (flat : list T)
    (tensors : list (list T)) : list (list T) :=
  match tensors with
  | [] => []
  | tensor :: rest =>
      let numel := length tensor in
      take numel (drop offset flat) :: unflatten_from (offset + numel) flat rest
  end.

Definition _unflatten_dense_tensors (flat : list T)
    (tensors : list (list T)) : list (list T) :=
  unflatten_from 0 flat tensors.

(** [buf.copy_(synced)] on the buffer [_append_module_grads] took from
    [param]. *)
Definition copy_ (o2 : bool) (param : Param) (synced : list T) : Param :=
  if o2
  then {| sequence_parallel_enabled := sequence_parallel_enabled param;
          grad := grad param; main_grad := synced |}
  else {| sequence_parallel_enabled := sequence_parallel_enabled param;
          grad := synced; main_grad := main_grad param |}.

(** The entries of [grads] alias the gradient buffers of the flagged
    parameters, in the order they were appended.  Writing the [k]-th
    synced tensor into [grads[k]] therefore writes into the [k]-th
    flagged parameter; [zip] stops with the shorter list. *)
Fixpoint copy_back_module (o2 : bool) (module : TorchModule)
    (synced : list (list T)) : TorchModule * list (list T) :=
  match module with
  | [] => ([], synced)
  | param :: rest =>
      if sequence_parallel_enabled param then
        match synced with
        | s :: synced' =>
            let '(rest', remaining) := copy_back_module o2 rest synced' in
            (copy_ o2 param s :: rest', remaining)
        | [] => (module, [])
        end
      else
        let '(rest', remaining) := copy_back_module o2 rest synced in
        (param :: rest', remaining)
  end.

Fixpoint copy_back_modules (o2 : bool) (ms : list TorchModule)
    (synced : list (list T)) : list TorchModule :=
  match ms with
  | [] => []
  | m :: ms' =>
      let '(m', remaining) := copy_back_module o2 m synced in
      m' :: copy_back_modules o2 ms' remaining
  end.

Definition copy_back (o2 : bool) (model : Model TorchModule)
    (synced : list (list T)) : Model TorchModule :=
  match model with
  | Stages ms => Stages (copy_back_modules o2 ms synced)
  | Single m => Single (copy_back_module o2 m synced).1
  end.

(** The buffers a walk over [module] appends to [grads]. *)
Fixpoint flagged_grads (o2 : bool) (module : TorchModule) : list (list T) :=
  match module with
  | [] => []
  | param :: rest =>
      if sequence_parallel_enabled param
      then selected_grad o2 param :: flagged_grads o2 rest
      else flagged_grads o2 rest
  end.

(** A parameter with the buffer the all-reduce may write emptied: what
    is left is what the all-reduce must not touch. *)
Definition blank (o2 : bool) (param : Param) : Param :=
  if sequence_parallel_enabled param then copy_ o2 param [] else param.

Definition blank_model (o2 : bool) (model : Model TorchModule)
  : Model TorchModule :=
  match model with
  | Stages ms => Stages (fmap (M:=list) (fmap (M:=list) (blank o2)) ms)
  | Single m => Single (fmap (M:=list) (blank o2) m)
  end.

(** [torch.distributed.all_reduce(buffer, group=...)]: the reduced
    values are left in [buffer], unless the collective fails. *)
Variable all_reduce : Group → list T → Result (list T).

(** The flagged gradients are collected, flattened, reduced in one
    collective and copied back.  Flattening raises when no parameter is
    flagged, before the collective is reached. *)
Definition allreduce_sequence_parallel_gradients (o2 : bool)
    (model : Model TorchModule) : Traced (Model TorchModule) :=
  let grads := collect_grads o2 model in
  coalesced ⟵ no_call (_flatten_dense_tensors grads);
  reduced ⟵ call (call_all_reduce coalesced tensor_model_parallel_group)
              (all_reduce tensor_model_parallel_group coalesced);
  traced_ret (copy_back o2 model (_unflatten_dense_tensors reduced grads)).

(** The collaborators of [training_step]: the optimizer's [zero_grad]
    and [allreduce_main_grads], the base class's [allreduce_gradients],
    the selected schedule, which runs forward and backward over the
    micro-batches and returns the per-micro-batch ['loss'] values (empty
    off the last pipeline stage), and
    [torch.distributed.broadcast(loss_mean, get_last_rank())], which
    leaves the last rank's value in [loss_mean], and the logging of the
    loss scale, the loss, the learning rate, the step and the consumed
    samples that ends the step.  Each of them may raise. *)
Variable optimizer_zero_grad : Model TorchModule → Result (Model TorchModule).
Variable optimizer_allreduce_main_grads :
  Model TorchModule → Result (Model TorchModule).
Variable allreduce_gradients : Model TorchModule → Result (Model TorchModule).
Variable run_schedule :
  FwdBwdFunction → ScheduleArgs → Model TorchModule →
  Result (Model TorchModule * list Qc).
Variable broadcast_from_last_rank : Qc → Result Qc.
Variable log : Qc → Result unit.

Definition select_custom_sync_context_handler (self : Self)
  : option SyncContextHandler :=
  if with_distributed_adam self then
    if megatron_amp_o2 self
    then Some (optimizer_no_sync_greedy_grad_copy true)
    else Some (optimizer_no_sync_greedy_grad_copy false)
  else
    if megatron_amp_o2 self && negb (get (sequence_parallel (cfg self)) false)
    then Some optimizer_no_sync
    else None.

(** The keyword arguments of the schedule call. *)
Definition schedule_args (self : Self) (batch_for_pipeline : option (list Tensor))
  : ScheduleArgs :=
  {| batch := batch_for_pipeline;
     forward_only := false;
     dtype := autocast_dtype self;
     grad_scaler := match precision (cfg self) with
                    | PInt 16 => true
                    | _ => false
                    end;
     custom_sync_context_handler := select_custom_sync_context_handler self;
     sequence_parallel_enabled_arg := get (sequence_parallel (cfg self)) false;
     sync_batch_comm_arg := get (sync_batch_comm (cfg self)) false |}.

(** [torch.stack(loss_tensors_list).mean()], or [0.0] when the schedule
    returned no losses. *)
Definition mean_loss (losses : list Qc) : Qc :=
  match losses with
  | [] => 0%Qc
  | _ => (foldr Qcplus 0 losses / Qc_of_Z (Z.of_nat (length losses)))%Qc
  end.

(** The sequence-parallel step of [training_step]. *)
Definition sequence_parallel_sync (self : Self) (model : Model TorchModule)
  : Traced (Model TorchModule) :=
  if (1 <? get (tensor_model_parallel_size (cfg self)) 1)
     && get (sequence_parallel (cfg self)) false
  then allreduce_sequence_parallel_gradients (megatron_amp_o2 self) model
  else traced_ret model.

(** The [if / elif / else] on the optimizer that follows it. *)
Definition main_gradient_sync (self : Self) (model : Model TorchModule)
  : Traced (Model TorchModule) :=
  if with_distributed_adam self then traced_ret model
  else if megatron_amp_o2 self
  then call call_optimizer_allreduce_main_grads
         (optimizer_allreduce_main_grads model)
  else call call_allreduce_gradients (allreduce_gradients model).

(** [training_step]: the model it leaves and the [loss_mean] it
    returns, which is the tensor the broadcast wrote into. *)
Definition training_step (self : Self) (ps : parallel_state.t)
    (global_batch : GlobalBatch) : Traced (Model TorchModule * Qc) :=
  model0 ⟵ call call_optimizer_zero_grad (optimizer_zero_grad (model self));
  batch_for_pipeline ⟵ no_call (training_batch_for_pipeline ps global_batch);
  let fwd_bwd_function := _get_fwd_bwd_function (cfg self) in
  let args := schedule_args self batch_for_pipeline in
  scheduled ⟵ call (call_fwd_bwd_function fwd_bwd_function args)
                (run_schedule fwd_bwd_function args model0);
  let loss_mean := mean_loss scheduled.2 in
  model2 ⟵ sequence_parallel_sync self scheduled.1;
  model3 ⟵ main_gradient_sync self model2;
  loss_mean' ⟵ call (call_broadcast_from_last_rank loss_mean)
                 (broadcast_from_last_rank loss_mean);
  _ ⟵ call (call_log loss_mean') (log loss_mean');
  traced_ret (model3, loss_mean').

(** Every call [training_step] makes on a collaborator returns. *)
Definition collaborators_return : Prop :=
  returns optimizer_zero_grad
  ∧ (∀ f args, returns (run_schedule f args))
  ∧ returns (all_reduce tensor_model_parallel_group)
  ∧ returns optimizer_allreduce_main_grads
  ∧ returns allreduce_gradients
  ∧ returns broadcast_from_last_rank
  ∧ returns log.

End Gradients.
Arguments Param : clear implicits.
Abbreviation TorchModule T := (list (Param T)).
Arguments Self : clear implicits.
Arguments Call : clear implicits.
Arguments Traced : clear implicits.

(** Counting calls in a trace. *)
Definition is_main_grads_allreduce {T} (c : Call T) : bool :=
  match c with call_optimizer_allreduce_main_grads => true | _ => false end.
Definition is_raw_gradients_allreduce {T} (c : Call T) : bool :=
  match c with call_allreduce_gradients => true | _ => false end.
Definition is_sequence_parallel_allreduce {T} (c : Call T) : bool :=
  match c with
  | call_all_reduce _ tensor_model_parallel_group => true
  | _ => false
  end.
Definition count {T} (f : Call T → bool) (trace : list (Call T)) : nat :=
  length (filter (λ c, f c = true) trace).

(** The sequence-parallel step is due: [tensor_model_parallel_size > 1]
    and [sequence_parallel]. *)
Definition sequence_parallel_due (c : Cfg) : bool :=
  (1 <? get (tensor_model_parallel_size c) 1) && get (sequence_parallel c) false.

End GradSync.

(** ** Validation: [validation_step], [validation_epoch_end] and
    [_get_average_metric]

    Losses are exact rationals here; the rounding of the float arithmetic
    of numpy and torch is outside the model. *)
Module Validation.
Import Batch.

(** What a numpy division yields: a number, or [nan]/[inf] (with a
    warning) when the divisor is zero. *)
Inductive Float :=
| finite (q : Qc)
| nan_or_inf.

(** [arr[0::2]]; [arr[1::2]] is [stride2 (tail arr)]. *)
Fixpoint stride2 {A} (arr : list A) : list A :=
  match arr with
  | [] => []
  | [x] => [x]
  | x :: _ :: rest => x :: stride2 rest
  end.

(** The builtin [sum] over an array. *)
Definition builtin_sum (arr : list Qc) : Qc := foldl Qcplus 0%Qc arr.

(** [np.dot] of two one-dimensional arrays. *)
Definition np_dot (a b : list Qc) : Result Qc :=
  if (length a =? length b)%nat
  then Ok (foldl Qcplus 0%Qc (zip_with Qcmult a b))
  else Raise (ValueError shapes_not_aligned).

(** One round of the loop of [_get_average_metric];
    [metric_with_batch_size] stands for the flattened array. *)
Definition accumulate (totals : Qc * Qc) (metric_with_batch_size : list Qc)
  : Result (Qc * Qc) :=
  let '(total_num_samples, total_metric) := totals in
  let batch_metrices := stride2 metric_with_batch_size in
  let batch_sizes := stride2 (tail metric_with_batch_size) in
  d ← np_dot batch_metrices batch_sizes;
  Ok ((total_num_samples + builtin_sum batch_sizes)%Qc, (total_metric + d)%Qc).

Fixpoint accumulate_all (totals : Qc * Qc) (metric_outputs : list (list Qc))
  : Result (Qc * Qc) :=
  match metric_outputs with
  | [] => Ok totals
  | m :: rest => totals' ← accumulate totals m; accumulate_all totals' rest
  end.

Definition _get_average_metric (metric_outputs : list (list Qc)) : Result Float :=
  '(total_num_samples, total_metric) ← accumulate_all (0%Qc, 0%Qc) metric_outputs;
  match metric_outputs with
  | [] => Raise ZeroDivisionError
  | _ => if Qeq_bool (this total_num_samples) 0
         then Ok nan_or_inf
         else Ok (finite (total_metric / total_num_samples)%Qc)
  end.

(** The spec's formula over (loss, batch size) pairs: the sum of
    loss times size over the sum of the sizes; and the plain mean of the
    losses it is contrasted with. *)
Definition weighted_sum (pairs : list (Qc * Qc)) : Qc :=
  foldr (λ p acc, p.1 * p.2 + acc)%Qc 0%Qc pairs.
Definition total_size (pairs : list (Qc * Qc)) : Qc :=
  foldr (λ p acc, p.2 + acc)%Qc 0%Qc pairs.
Definition weighted_average (pairs : list (Qc * Qc)) : Qc :=
  (weighted_sum pairs / total_size pairs)%Qc.
Definition plain_mean (pairs : list (Qc * Qc)) : Qc :=
  (foldr (λ p acc, p.1 + acc) 0 pairs / Qc_of_Z (Z.of_nat (length pairs)))%Qc.

(** A pair as the two-element array it is stored as. *)
Definition as_array (p : Qc * Qc) : list Qc := [p.1; p.2].

(** [_get_metric_with_batch_size('loss')]: one [[loss, micro_batch_size]]
    per micro-batch. *)
Definition _get_metric_with_batch_size (cfg : Cfg)
    (losses_reduced_per_micro_batch : list Qc) : list (list Qc) :=
  (λ loss, [loss; Qc_of_Z (micro_batch_size cfg)]) <$> losses_reduced_per_micro_batch.

Section Steps.
(** The selected schedule run with [forward_only=True]: the
    per-micro-batch ['loss'] values. *)
Variable run_forward : option (list Tensor) → list Qc.

Definition validation_step (cfg : Cfg) (ps : parallel_state.t)
    (batch : GlobalBatch) : Result (list (list Qc)) :=
  batch_for_pipeline ← validation_batch_for_pipeline cfg ps batch;
  Ok (_get_metric_with_batch_size cfg (run_forward batch_for_pipeline)).
End Steps.

(** [output[0]] *)
Definition first {A} (output : list A) : Result A :=
  match output with
  | [] => Raise IndexError
  | x :: _ => Ok x
  end.

(** [averaged_metrics] as [validation_epoch_end] computes it on this rank
    before the broadcast ([None]: the early [return] on no outputs).  The
    zero-shot evaluation, run only with an imagenet validation set, is
    left out. *)
Definition validation_epoch_end (ps : parallel_state.t)
    (outputs : list (list (list Qc))) : Result (option Float) :=
  match outputs with
  | [] => Ok None
  | _ =>
      if parallel_state.is_pipeline_last_stage false ps then
        loss_outputs ← mapM first outputs;
        averaged ← _get_average_metric loss_outputs;
        Ok (Some averaged)
      else Ok (Some (finite 0%Qc))
  end.

End Validation.

(** ** Checkpoint hooks: [on_save_checkpoint] and [on_load_checkpoint] *)
Module Checkpoint.

(** The f-string [f'model{i}']. *)
Definition key (i : nat) : string := "model" +:+ pretty i.


Section Hooks.
(** Stage modules and their state dicts. *)
Context {M SD : Type}.

(** [module.state_dict_for_save_checkpoint()], which runs under the
    ambient [parallel_state]. *)
Variable state_dict_for_save_checkpoint : parallel_state.t → M → SD.

(** [module.load_state_dict(state_dict, strict=True)]: the module
    afterwards, and the exception raised when the key sets differ. *)
Variable load_state_dict_strict :
  parallel_state.t → M → SD → M * option Exception.






End Hooks.

End Checkpoint.

(** ** Batch sizes fixed by [setup] *)
Module Setup.

(** Python's [a // b] on integers. *)
Definition floordiv (a b : Z) : Result Z :=
  if b =? 0 then Raise ZeroDivisionError else Ok (a `div` b).

Record BatchSizes := {
  _num_micro_batches : Z;
  _global_batch_size_on_this_data_parallel_rank : Z;
}.

(** The two attributes [setup] computes for the dataloaders, which are
    built with [batch_size=self._global_batch_size_on_this_data_parallel_rank]. *)
Definition setup_batch_sizes (cfg : Cfg) (ps : parallel_state.t) : Result BatchSizes :=
  n ← floordiv (global_batch_size cfg)
        (micro_batch_size cfg * parallel_state.get_data_parallel_world_size ps);
  Ok {| _num_micro_batches := n;
        _global_batch_size_on_this_data_parallel_rank := n * micro_batch_size cfg |}.

End Setup.

(** ** [parameters] and [configure_optimizers] *)
Module Optimizers.
Import GradSync.

(** [MegatronCLIPModel.parameters]: the parameters of the single module, or
    those of the stage modules chained in order. *)
Definition parameters {P} (model : Model (list P)) : list P :=
  match model with
  | Stages ms => concat ms
  | Single m => m
  end.

(** A parameter together with the two attributes [configure_optimizers]
    may set on it ([None]: the attribute is absent). *)
Record OptParam (T : Type) := {
  param : Param T;
  _disable_greedy_grad_copy : option bool;
  _disable_overlap_grad_sync : option bool;
}.
Arguments param {T} _.
Arguments _disable_greedy_grad_copy {T} _.
Arguments _disable_overlap_grad_sync {T} _.

(** The body of the loop over [self.parameters()]. *)
Definition configure_param {T} (o2 : bool) (p : OptParam T) : OptParam T :=
  if sequence_parallel_enabled (param p)
  then {| param := param p;
          _disable_greedy_grad_copy := Some (negb o2);
          _disable_overlap_grad_sync := Some true |}
  else p.

(** The loop over [self.parameters()], which marks the parameters in
    place. *)
Definition mark_parameters {T} (o2 : bool) (model : Model (list (OptParam T)))
  : Model (list (OptParam T)) :=
  match model with
  | Stages ms => Stages (fmap (M:=list) (fmap (M:=list) (configure_param o2)) ms)
  | Single m => Single (fmap (M:=list) (configure_param o2) m)
  end.

(** [self.model[0]] and [self.model[-1]] when the model is a list, the
    model itself otherwise. *)
Definition first_module {P} (model : Model P) : Result P :=
  match model with
  | Stages ms => match ms with
                 | m :: _ => Ok m
                 | [] => Raise IndexError
                 end
  | Single m => Ok m
  end.

Definition last_module {P} (model : Model P) : Result P :=
  match model with
  | Stages ms => match last ms with
                 | Some m => Ok m
                 | None => Raise IndexError
                 end
  | Single m => Ok m
  end.

(** [configure_optimizers] up to the call of the base class.  Under the
    distributed optimizer, with more than one pipeline stage, the first
    and the last stage look up their embedding module, which is all that
    is left of that branch; then the loop marks the parameters in
    place. *)
Definition configure_optimizers {T} (ps : parallel_state.t)
    (with_distributed_adam o2 : bool)
    (model : Model (list (OptParam T))) : Result (Model (list (OptParam T))) :=
  if with_distributed_adam then
    (if 1 <? parallel_state.get_pipeline_model_parallel_world_size ps then
       (if parallel_state.is_pipeline_first_stage true ps
        then first_module model;; Ok tt else Ok tt);;
       (if parallel_state.is_pipeline_last_stage true ps
        then last_module model;; Ok tt else Ok tt)
     else Ok tt);;
    Ok (mark_parameters o2 model)
  else Ok model.

(** The model as the gradient code sees it. *)
Definition grad_view {T} (model : Model (list (OptParam T))) : Model (list (Param T)) :=
  match model with
  | Stages ms => Stages (fmap (M:=list) (fmap (M:=list) param) ms)
  | Single m => Single (fmap (M:=list) param m)
  end.

(** The gradient buffers, in [parameters] order, of the parameters whose
    overlapped gradient synchronisation is disabled. *)
Definition overlap_disabled_grads {T} (o2 : bool) (ps : list (OptParam T))
  : list (list T) :=
  (λ p, selected_grad o2 (param p))
    <$> filter (λ p, _disable_overlap_grad_sync p = Some true) ps.

(** The gradient buffers, in [parameters] order, of the parameters
    flagged [sequence_parallel_enabled]. *)
Definition sequence_parallel_grads {T} (o2 : bool) (model : Model (list (Param T)))
  : list (list T) :=
  selected_grad o2
    <$> filter (λ p, sequence_parallel_enabled p = true) (parameters model).

(** A model in which [f] has been applied to the buffer the
    sequence-parallel all-reduce writes, for every flagged parameter. *)
Definition map_flagged_param {T} (f : list T → list T) (o2 : bool) (p : Param T)
  : Param T :=
  if sequence_parallel_enabled p then copy_ o2 p (f (selected_grad o2 p)) else p.

Definition map_flagged {T} (f : list T → list T) (o2 : bool)
    (model : Model (list (Param T))) : Model (list (Param T)) :=
  match model with
  | Stages ms => Stages (fmap (M:=list) (fmap (M:=list) (map_flagged_param f o2)) ms)
  | Single m => Single (fmap (M:=list) (map_flagged_param f o2) m)
  end.

End Optimizers.

(** ** Micro-batches and per-step metric arrays *)
Module Shapes.

(** A micro-batch the schedule cuts from [batch_for_pipeline]: [None] from
    [None], and from a list of tensors a list of as many slices. *)
Definition micro_batch_of (batch_for_pipeline micro_batch : option (list Batch.Tensor))
  : Prop :=
  match batch_for_pipeline, micro_batch with
  | None, None => True
  | Some b, Some mb => length mb = length b
  | _, _ => False
  end.

(** [np.array(pairs).flatten()] for the (loss, size) pairs of one step. *)
Definition flatten_pairs (pairs : list (Qc * Qc)) : list Qc :=
  concat (Validation.as_array <$> pairs).

(** The plain mean of a list of losses. *)
Definition mean (losses : list Qc) : Qc :=
  (foldr Qcplus 0 losses / Qc_of_Z (Z.of_nat (length losses)))%Qc.

End Shapes.

#[global] Instance PrecisionValue_eq_dec : EqDecision PrecisionValue.
Proof. solve_decision. Defined.

(** ** Sample configurations, ranks and batches *)
Module Samples.

(** Single device, fp32, nothing optional set. *)
Definition cfg_default : Cfg :=
  {| pipeline_model_parallel_size := None;
     virtual_pipeline_model_parallel_size := None;
     tensor_model_parallel_size := None;
     sequence_parallel := None;
     sync_batch_comm := None;
     megatron_amp_O2 := None;
     precision := PInt 32;
     micro_batch_size := 8;
     global_batch_size := 32 |}.

Definition with_pipeline (pp : Z) (vpp : option Z) (c : Cfg) : Cfg :=
  {| pipeline_model_parallel_size := Some pp;
     virtual_pipeline_model_parallel_size := vpp;
     tensor_model_parallel_size := tensor_model_parallel_size c;
     sequence_parallel := sequence_parallel c;
     sync_batch_comm := sync_batch_comm c;
     megatron_amp_O2 := megatron_amp_O2 c;
     precision := precision c;
     micro_batch_size := micro_batch_size c;
     global_batch_size := global_batch_size c |}.

Definition with_tensor_parallel (tp : Z) (sp : bool) (c : Cfg) : Cfg :=
  {| pipeline_model_parallel_size := pipeline_model_parallel_size c;
     virtual_pipeline_model_parallel_size := virtual_pipeline_model_parallel_size c;
     tensor_model_parallel_size := Some tp;
     sequence_parallel := Some sp;
     sync_batch_comm := sync_batch_comm c;
     megatron_amp_O2 := megatron_amp_O2 c;
     precision := precision c;
     micro_batch_size := micro_batch_size c;
     global_batch_size := global_batch_size c |}.

(** Four pipeline stages, the virtual pipeline size set to 0, O2 off. *)
Definition cfg_virtual_zero : Cfg := with_pipeline 4 (Some 0) cfg_default.

Definition trainer_fp32 : Trainer :=
  {| accumulate_grad_batches := 1; trainer_precision := PInt 32 |}.

(** Apex present, base constructor fine, [build_model] returning the
    given modules. *)
Definition env_of (built : list nat) : Construction.Env nat :=
  {| Construction.HAVE_APEX := true;
     Construction.super_init := Ok tt;
     Construction.trainer := trainer_fp32;
     Construction.build_model := built |}.

(** Pipeline rank [r] of [n], no virtual stages, [dp] data-parallel ranks. *)
Definition rank_of (r : Z) (n dp : positive) : parallel_state.t :=
  {| parallel_state.pipeline_model_parallel_rank := r;
     parallel_state.pipeline_model_parallel_world_size := n;
     parallel_state.virtual_pipeline_model_parallel_rank := None;
     parallel_state.virtual_pipeline_model_parallel_world_size := None;
     parallel_state.data_parallel_world_size := dp |}.

(** A rank in a group of two whose peer holds the same gradients: the
    sum all-reduce doubles every entry. *)
Definition all_reduce_doubling (g : GradSync.Group) (buffer : list Z)
  : Result (list Z) :=
  Ok (Z.mul 2 <$> buffer).

(** A collaborator that returns and leaves what it is given as it is. *)
Definition returning {A} (a : A) : Result A := Ok a.

(** Logging that returns. *)
Definition logging (loss_mean : Qc) : Result unit := Ok tt.

(** The broadcast on a rank other than the last, whose loss was 5. *)
Definition broadcast_of_5 (loss_mean : Qc) : Result Qc := Ok (Qc_of_Z 5).

(** A schedule that leaves the gradients as they are and reports the
    losses 2 and 4. *)
Definition schedule_two_losses (f : Schedule.FwdBwdFunction)
    (args : GradSync.ScheduleArgs)
    (m : Model (GradSync.TorchModule Z))
  : Result (Model (GradSync.TorchModule Z) * list Qc) :=
  Ok (m, [Qc_of_Z 2; Qc_of_Z 4]).

(** One module with a layer-norm parameter, flagged, and a weight. *)
Definition module_ln_w : GradSync.TorchModule Z :=
  [ {| GradSync.sequence_parallel_enabled := true;
       GradSync.grad := [1; 2]; GradSync.main_grad := [10; 20] |};
    {| GradSync.sequence_parallel_enabled := false;
       GradSync.grad := [3; 4; 5]; GradSync.main_grad := [30; 40; 50] |} ].

(** Standard optimizer, O2 on or off, over [cfg]. *)
Definition self_of (cfg : Cfg) (distributed o2 : bool) : GradSync.Self Z :=
  {| GradSync.cfg := cfg;
     GradSync.with_distributed_adam := distributed;
     GradSync.megatron_amp_o2 := o2;
     GradSync.model := Single module_ln_w;
     GradSync.autocast_dtype := torch_float |}.

(** One module with a weight only: no parameter is flagged. *)
Definition module_w : GradSync.TorchModule Z :=
  [ {| GradSync.sequence_parallel_enabled := false;
       GradSync.grad := [3; 4; 5]; GradSync.main_grad := [30; 40; 50] |} ].

Definition self_unflagged (cfg : Cfg) (distributed o2 : bool) : GradSync.Self Z :=
  {| GradSync.cfg := cfg;
     GradSync.with_distributed_adam := distributed;
     GradSync.megatron_amp_o2 := o2;
     GradSync.model := Single module_w;
     GradSync.autocast_dtype := torch_float |}.

(** The training step over the sample collaborators. *)
Definition sample_step (broadcast : Qc → Result Qc) (self : GradSync.Self Z)
    (ps : parallel_state.t) (gb : Batch.GlobalBatch)
  : GradSync.Traced Z (Model (GradSync.TorchModule Z) * Qc) :=
  GradSync.training_step all_reduce_doubling returning returning returning
    schedule_two_losses broadcast logging self ps gb.

(** A forward-only schedule reporting the losses 2 and 4. *)
Definition forward_two_losses (b : option (list Batch.Tensor)) : list Qc :=
  [Qc_of_Z 2; Qc_of_Z 4].




(** A global batch of [n] samples on this rank. *)
Definition batch_of (n : Z) : Batch.GlobalBatch :=
  {| Batch.images := {| Batch.shape0 := n; Batch.storage := 0 |};
     Batch.captions := {| Batch.shape0 := n; Batch.storage := 1 |} |}.

End Samples.

(** ** Further samples *)
Module MoreSamples.

(** global_batch_size 30 on 2 data-parallel ranks with micro-batches of 8. *)
Definition cfg_30_8 : Cfg :=
  {| pipeline_model_parallel_size := None;
     virtual_pipeline_model_parallel_size := None;
     tensor_model_parallel_size := None;
     sequence_parallel := None;
     sync_batch_comm := None;
     megatron_amp_O2 := None;
     precision := PInt 32;
     micro_batch_size := 8;
     global_batch_size := 30 |}.

(** O2 on, over [c]. *)
Definition with_O2 (c : Cfg) : Cfg :=
  {| pipeline_model_parallel_size := pipeline_model_parallel_size c;
     virtual_pipeline_model_parallel_size := virtual_pipeline_model_parallel_size c;
     tensor_model_parallel_size := tensor_model_parallel_size c;
     sequence_parallel := sequence_parallel c;
     sync_batch_comm := sync_batch_comm c;
     megatron_amp_O2 := Some true;
     precision := precision c;
     micro_batch_size := micro_batch_size c;
     global_batch_size := global_batch_size c |}.

(** The sample module with no optimizer attribute set yet. *)
Definition fresh_opt_module : list (Optimizers.OptParam Z) :=
  (λ p, {| Optimizers.param := p;
           Optimizers._disable_greedy_grad_copy := None;
           Optimizers._disable_overlap_grad_sync := None |})
    <$> Samples.module_ln_w.

End MoreSamples.

(** * Properties *)

(** ** The schedule selector *)
Section ScheduleSelector.
Import Schedule.

(** C3. The schedule is a function of the configuration alone and has
    three cases: a pipeline size of at most 1 selects no pipelining; a
    larger one selects pipelining without interleaving when the virtual
    pipeline size is unset and with interleaving when it is set. *)
Theorem schedule_selector_three_way (cfg : Cfg) :
  let pp := get (pipeline_model_parallel_size cfg) 1 in
  let vpp := virtual_pipeline_model_parallel_size cfg in
  (pp ≤ 1 → _get_fwd_bwd_function cfg = forward_backward_no_pipelining)
  ∧ (1 < pp → vpp = None →
     _get_fwd_bwd_function cfg = forward_backward_pipelining_without_interleaving)
  ∧ (1 < pp → vpp ≠ None →
     _get_fwd_bwd_function cfg = _forward_backward_pipelining_with_interleaving).
Proof.
  unfold _get_fwd_bwd_function. cbn zeta.
  destruct (Z.ltb_spec 1 (get (pipeline_model_parallel_size cfg) 1)) as [Hpp|Hpp];
    destruct (virtual_pipeline_model_parallel_size cfg) as [v|]; cbn;
    repeat split; intros; first [reflexivity | lia | congruence].
Qed.

Lemma schedule_selector_three_way_witness :
  _get_fwd_bwd_function Samples.cfg_default = forward_backward_no_pipelining
  ∧ _get_fwd_bwd_function (Samples.with_pipeline 4 None Samples.cfg_default)
    = forward_backward_pipelining_without_interleaving
  ∧ _get_fwd_bwd_function (Samples.with_pipeline 4 (Some 2) Samples.cfg_default)
    = _forward_backward_pipelining_with_interleaving.
Proof.
  split; [|split].
  - apply (schedule_selector_three_way Samples.cfg_default). simpl. lia.
  - apply (schedule_selector_three_way (Samples.with_pipeline 4 None Samples.cfg_default)).
    + simpl. lia.
    + reflexivity.
  - apply (schedule_selector_three_way (Samples.with_pipeline 4 (Some 2) Samples.cfg_default)).
    + simpl. lia.
    + simpl. discriminate.
Defined.

End ScheduleSelector.

(** ** Construction *)
Section ConstructionGuards.
Import Construction.

(** C4, on the code.  A virtual pipeline size of 0 with O2 off: the key
    is set, the guard tests its truth value and lets it pass, and the
    constructor goes through.  The tests that follow take 0 as set: the
    model stays the list [build_model] returned, and with four pipeline
    stages the schedule selected is the interleaved one, which the guard
    means to reserve to O2. *)
Theorem init_accepts_virtual_pipeline_zero_without_O2 :
  virtual_pipeline_model_parallel_size Samples.cfg_virtual_zero = Some 0
  ∧ get (megatron_amp_O2 Samples.cfg_virtual_zero) false = false
  ∧ init id Samples.cfg_virtual_zero (Samples.env_of [7%nat; 8%nat])
    = Ok {| megatron_amp_o2 := false; model := Stages [7%nat; 8%nat];
            autocast_dtype := torch_float |}
  ∧ Schedule._get_fwd_bwd_function Samples.cfg_virtual_zero
    = Schedule._forward_backward_pipelining_with_interleaving.
Proof. repeat split. Qed.

(** For every non-zero virtual pipeline size the guard works: with O2
    off the constructor raises, never a model comes out, and once the
    apex check, the base constructor and the trainer validation have
    passed the exception is the [ValueError] of the virtual-pipeline
    guard. *)
Lemma init_rejects_virtual_pipeline_without_O2
    {M : Type} (Float16Module : M → M) (cfg : Cfg) (env : Env M) (v : Z) :
  virtual_pipeline_model_parallel_size cfg = Some v →
  v ≠ 0 →
  get (megatron_amp_O2 cfg) false = false →
  (∃ e, init Float16Module cfg env = Raise e)
  ∧ (HAVE_APEX env = true →
     super_init env = Ok tt →
     accumulate_grad_batches (trainer env) ≤ 1 →
     init Float16Module cfg env
     = Raise (ValueError virtual_pipeline_requires_megatron_amp_O2)).
Proof.
  intros Hv Hnz Ho2. unfold init, _validate_trainer. rewrite Hv, Ho2. cbn [truthy].
  assert (Hz : (v =? 0) = false) by (apply Z.eqb_neq; exact Hnz).
  rewrite Hz. cbn [negb andb].
  destruct (HAVE_APEX env); cbn; [|split; [eauto|discriminate]].
  destruct (super_init env) as [[]|e]; cbn; [|split; [eauto|discriminate]].
  destruct (Z.ltb_spec 1 (accumulate_grad_batches (trainer env))); cbn.
  - split; [eauto|]. intros _ _ ?. lia.
  - split; [eauto|]. reflexivity.
Qed.

Lemma init_rejects_virtual_pipeline_without_O2_witness :
  init id (Samples.with_pipeline 4 (Some 2) Samples.cfg_default) (Samples.env_of [7%nat; 8%nat])
  = Raise (ValueError virtual_pipeline_requires_megatron_amp_O2).
Proof.
  apply (init_rejects_virtual_pipeline_without_O2 id
           (Samples.with_pipeline 4 (Some 2) Samples.cfg_default)
           (Samples.env_of [7%nat; 8%nat]) 2);
    [reflexivity | lia | reflexivity | reflexivity | reflexivity | simpl; lia].
Defined.

End ConstructionGuards.

(** ** Batch partitioning *)
Section BatchPartitioner.
Import Batch.

(** Without an expected size the partitioner returns the two tensors. *)
Lemma process_global_batch_unchecked (ps : parallel_state.t) (gb : GlobalBatch) :
  process_global_batch ps gb None = Ok [images gb; captions gb].
Proof. reflexivity. Qed.

(** With an expected size it raises exactly on an undersized batch. *)
Lemma process_global_batch_checked (ps : parallel_state.t) (gb : GlobalBatch)
    (gbs : Z) :
  process_global_batch ps gb (Some gbs)
  = if shape0 (images gb) <? gbs `div` parallel_state.get_data_parallel_world_size ps
    then Raise (NotImplementedError "Please turn on drop_last.")
    else Ok [images gb; captions gb].
Proof.
  unfold process_global_batch.
  destruct (shape0 (images gb) <? _); reflexivity.
Qed.

(** The last of two pipeline stages is not the first stage, and
    [training_step] still hands it the raw tensors. *)
Lemma last_stage_receives_raw_inputs :
  let ps := Samples.rank_of 1 2 1 in
  1 < parallel_state.get_pipeline_model_parallel_world_size ps
  ∧ parallel_state.is_pipeline_first_stage true ps = false
  ∧ training_batch_for_pipeline ps (Samples.batch_of 16)
    = Ok (Some [images (Samples.batch_of 16); captions (Samples.batch_of 16)]).
Proof. cbn. repeat split. Qed.

(** C5, amended.  With a pipeline deeper than 1, [training_step] passes
    the raw tensors to the schedule on the ranks of the first and of the
    last stage and [None] on every intermediate rank; inside the forward
    callback the model is given the raw tensors on the first stage only,
    every other stage calls it with [(None, None)]. *)
Theorem raw_inputs_by_stage (ps : parallel_state.t) (gb : GlobalBatch) :
  1 < parallel_state.get_pipeline_model_parallel_world_size ps →
  training_batch_for_pipeline ps gb
  = Ok (if parallel_state.is_pipeline_first_stage true ps
           || parallel_state.is_pipeline_last_stage true ps
        then Some [images gb; captions gb]
        else None)
  ∧ (∀ micro_batch,
       parallel_state.is_pipeline_first_stage false ps = false →
       fwd_output_and_loss_func ps micro_batch = Ok (None, None))
  ∧ (parallel_state.is_pipeline_first_stage false ps = true →
     fwd_output_and_loss_func ps (Some [images gb; captions gb])
     = Ok (Some (images gb), Some (captions gb))).
Proof.
  intros Hpp. split; [|split].
  - unfold training_batch_for_pipeline.
    destruct (_ || _); reflexivity.
  - intros mb Hfirst. unfold fwd_output_and_loss_func.
    destruct (Z.eqb_spec (parallel_state.get_pipeline_model_parallel_world_size ps) 1);
      [lia|]. rewrite Hfirst. reflexivity.
  - intros Hfirst. unfold fwd_output_and_loss_func.
    destruct (Z.eqb_spec (parallel_state.get_pipeline_model_parallel_world_size ps) 1);
      [lia|]. rewrite Hfirst. reflexivity.
Qed.

Lemma raw_inputs_by_stage_witness :
  training_batch_for_pipeline (Samples.rank_of 1 4 1) (Samples.batch_of 16) = Ok None
  ∧ fwd_output_and_loss_func (Samples.rank_of 3 4 1)
      (Some [images (Samples.batch_of 16); captions (Samples.batch_of 16)])
    = Ok (None, None).
Proof.
  assert (Hdeep : ∀ r, 1 < parallel_state.get_pipeline_model_parallel_world_size
                               (Samples.rank_of r 4 1)) by (intros r; reflexivity).
  split.
  - exact (proj1 (raw_inputs_by_stage (Samples.rank_of 1 4 1) (Samples.batch_of 16)
                    (Hdeep 1))).
  - apply (proj1 (proj2 (raw_inputs_by_stage (Samples.rank_of 3 4 1)
                           (Samples.batch_of 16) (Hdeep 3)))).
    reflexivity.
Defined.

(** A training step with global_batch_size 32 on 2 data-parallel ranks
    expects 16 samples per rank; handed 14, the partitioner returns them
    without raising. *)
Lemma training_partition_accepts_undersized_batch :
  let ps := Samples.rank_of 0 1 2 in
  shape0 (images (Samples.batch_of 14))
    < global_batch_size Samples.cfg_default
      `div` parallel_state.get_data_parallel_world_size ps
  ∧ training_batch_for_pipeline ps (Samples.batch_of 14)
    = Ok (Some [images (Samples.batch_of 14); captions (Samples.batch_of 14)]).
Proof. cbn. split; [reflexivity|reflexivity]. Qed.

(** C6, amended.  When the expected global batch size is passed to the
    partitioner, as the validation and test steps do, a batch whose
    leading dimension is below the floor of global_batch_size over the
    data-parallel world size makes it raise [NotImplementedError]; no
    batch, padded or not, is returned. *)
Theorem undersized_batch_raises_when_checked (cfg : Cfg) (ps : parallel_state.t)
    (gb : GlobalBatch) (gbs : Z) :
  shape0 (images gb) < gbs `div` parallel_state.get_data_parallel_world_size ps →
  process_global_batch ps gb (Some gbs)
  = Raise (NotImplementedError "Please turn on drop_last.")
  ∧ (gbs = global_batch_size cfg →
     validation_batch_for_pipeline cfg ps gb
     = Raise (NotImplementedError "Please turn on drop_last.")).
Proof.
  intros Hlt.
  assert (Hp : process_global_batch ps gb (Some gbs)
               = Raise (NotImplementedError "Please turn on drop_last.")).
  { rewrite process_global_batch_checked.
    destruct (Z.ltb_spec (shape0 (images gb))
                (gbs `div` parallel_state.get_data_parallel_world_size ps));
      [reflexivity | lia]. }
  split; [exact Hp|].
  intros ->. unfold validation_batch_for_pipeline. rewrite Hp. reflexivity.
Qed.

Lemma undersized_batch_raises_when_checked_witness :
  validation_batch_for_pipeline Samples.cfg_default (Samples.rank_of 0 1 2)
    (Samples.batch_of 14)
  = Raise (NotImplementedError "Please turn on drop_last.").
Proof.
  apply (undersized_batch_raises_when_checked Samples.cfg_default
           (Samples.rank_of 0 1 2) (Samples.batch_of 14) 32);
    [vm_compute; reflexivity | reflexivity].
Defined.

End BatchPartitioner.

(** ** The sequence-parallel all-reduce on gradient buffers *)
Section CoalescedAllReduce.
Import GradSync Optimizers.
Local Open Scope nat_scope.
Context {T : Type}.
Implicit Types (m : TorchModule T) (ms : list (TorchModule T)).
Implicit Types (grads synced : list (list T)) (flat : list T).

Lemma _append_module_grads_flagged o2 m grads :
  _append_module_grads o2 m grads = grads ++ flagged_grads o2 m.
Proof.
  revert grads. induction m as [|p m IH]; intros grads; cbn.
  - by rewrite app_nil_r.
  - rewrite IH. destruct (sequence_parallel_enabled p); [|done].
    by rewrite <- app_assoc.
Qed.

Lemma collect_grads_stages o2 ms :
  collect_grads o2 (Stages ms) = concat (map (flagged_grads o2) ms).
Proof.
  cbn. change (concat (map (flagged_grads o2) ms)) with ([] ++ concat (map (flagged_grads o2) ms)).
  generalize (@nil (list T)). induction ms as [|m ms IH]; intros grads; cbn.
  - by rewrite app_nil_r.
  - rewrite IH, _append_module_grads_flagged. by rewrite <- app_assoc.
Qed.

Lemma collect_grads_single o2 m :
  collect_grads o2 (Single m) = flagged_grads o2 m.
Proof. cbn. by rewrite _append_module_grads_flagged. Qed.

Lemma blank_copy_ o2 (p : Param T) s :
  sequence_parallel_enabled p = true → blank o2 (copy_ o2 p s) = blank o2 p.
Proof. unfold blank, copy_. intros ->. destruct o2; cbn; by rewrite ?H. Qed.

Lemma flagged_copy_ o2 (p : Param T) s :
  sequence_parallel_enabled (copy_ o2 p s) = sequence_parallel_enabled p
  ∧ selected_grad o2 (copy_ o2 p s) = s.
Proof. unfold copy_, selected_grad. by destruct o2. Qed.

(** Copying back into one module consumes one synced tensor per flagged
    parameter and touches nothing else. *)
Lemma copy_back_module_spec o2 m synced :
  length (flagged_grads o2 m) ≤ length synced →
  flagged_grads o2 (copy_back_module o2 m synced).1
    = take (length (flagged_grads o2 m)) synced
  ∧ (copy_back_module o2 m synced).2 = drop (length (flagged_grads o2 m)) synced
  ∧ fmap (M:=list) (blank o2) (copy_back_module o2 m synced).1 = fmap (M:=list) (blank o2) m.
Proof.
  revert synced. induction m as [|p m IH]; intros synced Hlen; cbn in *.
  - by rewrite take_0, drop_0.
  - destruct (sequence_parallel_enabled p) eqn:Hp; cbn in *.
    + destruct synced as [|s synced]; cbn in *; [lia|].
      destruct (IH synced ltac:(lia)) as (IH1 & IH2 & IH3).
      destruct (copy_back_module o2 m synced) as [m' rest]; cbn in *.
      destruct (flagged_copy_ o2 p s) as [-> ->]. rewrite Hp.
      rewrite IH1, IH2, IH3, blank_copy_ by done. done.
    + destruct (IH synced Hlen) as (IH1 & IH2 & IH3).
      destruct (copy_back_module o2 m synced) as [m' rest]; cbn in *.
      rewrite Hp, IH1, IH2, IH3. done.
Qed.

Lemma copy_back_modules_spec o2 ms synced :
  length (concat (map (flagged_grads o2) ms)) ≤ length synced →
  concat (map (flagged_grads o2) (copy_back_modules o2 ms synced))
    = take (length (concat (map (flagged_grads o2) ms))) synced
  ∧ fmap (M:=list) (fmap (M:=list) (blank o2)) (copy_back_modules o2 ms synced) = fmap (M:=list) (fmap (M:=list) (blank o2)) ms.
Proof.
  revert synced. induction ms as [|m ms IH]; intros synced Hlen; cbn in *.
  - by rewrite take_0.
  - rewrite length_app in Hlen |- *.
    destruct (copy_back_module_spec o2 m synced ltac:(lia)) as (H1 & H2 & H3).
    destruct (copy_back_module o2 m synced) as [m' rest]; cbn in *. subst rest.
    destruct (IH (drop (length (flagged_grads o2 m)) synced)) as [IH1 IH2].
    { rewrite length_drop. lia. }
    rewrite H1, H3, IH1, IH2, take_take_drop. done.
Qed.

(** The views cover [flat] from [offset] on, each with the size of its
    tensor. *)
Lemma unflatten_from_spec offset flat grads :
  offset + length (concat grads) ≤ length flat →
  concat (unflatten_from offset flat grads)
    = take (length (concat grads)) (drop offset flat)
  ∧ length <$> unflatten_from offset flat grads = length <$> grads.
Proof.
  revert offset. induction grads as [|g grads IH]; intros offset Hlen; cbn in *.
  - by rewrite take_0.
  - rewrite length_app in Hlen |- *.
    destruct (IH (offset + length g) ltac:(lia)) as [IH1 IH2].
    rewrite IH1, IH2, <- drop_drop, take_take_drop.
    split; [done|]. f_equal. rewrite length_take, length_drop. lia.
Qed.

Lemma length_unflatten_from offset flat grads :
  length (unflatten_from offset flat grads) = length grads.
Proof. revert offset. induction grads; intros; cbn; [done|]. by rewrite IHgrads. Qed.

Lemma flagged_grads_app o2 m m' :
  flagged_grads o2 (m ++ m') = flagged_grads o2 m ++ flagged_grads o2 m'.
Proof.
  induction m as [|p m IH]; cbn; [done|].
  destruct (sequence_parallel_enabled p); cbn; by rewrite IH.
Qed.

Lemma collect_grads_flagged_parameters o2 (model : Model (list (Param T))) :
  collect_grads o2 model = flagged_grads o2 (parameters model).
Proof.
  destruct model as [m|ms]; cbn [parameters].
  - apply collect_grads_single.
  - rewrite collect_grads_stages.
    induction ms as [|m ms IH]; cbn; [done|]. by rewrite flagged_grads_app, IH.
Qed.

Lemma flagged_grads_filter o2 m :
  flagged_grads o2 m
  = selected_grad o2 <$> filter (λ p, sequence_parallel_enabled p = true) m.
Proof.
  induction m as [|p m IH]; [done|]. rewrite filter_cons. cbn [flagged_grads].
  destruct (sequence_parallel_enabled p) eqn:Hp; case_decide; try done;
    cbn; by rewrite IH.
Qed.

(** The walk over the modules collects the buffers of the flagged
    parameters, in [parameters] order. *)
Lemma collect_grads_sequence_parallel_grads o2 (model : Model (list (Param T))) :
  collect_grads o2 model = sequence_parallel_grads o2 model.
Proof.
  rewrite collect_grads_flagged_parameters. apply flagged_grads_filter.
Qed.

(** After the copy the flagged buffers are the views of the reduced
    buffer, and nothing else has changed. *)
Lemma copy_back_unflatten o2 (model : Model (TorchModule T)) (reduced : list T) :
  let grads := collect_grads o2 model in
  let synced := _unflatten_dense_tensors reduced grads in
  collect_grads o2 (copy_back o2 model synced) = synced
  ∧ blank_model o2 (copy_back o2 model synced) = blank_model o2 model.
Proof.
  intros grads synced.
  assert (Hn : length synced = length grads) by apply length_unflatten_from.
  subst grads. destruct model as [m|ms]; cbn [copy_back blank_model].
  - rewrite collect_grads_single in *.
    destruct (copy_back_module_spec o2 m synced ltac:(lia)) as (H1 & _ & H3).
    rewrite H1, H3, take_ge by lia. done.
  - rewrite collect_grads_stages in *.
    destruct (copy_back_modules_spec o2 ms synced ltac:(lia)) as [H1 H2].
    rewrite H1, H2, take_ge by lia. done.
Qed.

(** The views of a buffer of the right size cover it. *)
Lemma unflatten_reduced (reduced : list T) grads :
  length reduced = length (concat grads) →
  concat (_unflatten_dense_tensors reduced grads) = reduced
  ∧ length <$> _unflatten_dense_tensors reduced grads = length <$> grads.
Proof.
  intros Hlen. unfold _unflatten_dense_tensors.
  destruct (unflatten_from_spec 0 reduced grads ltac:(lia)) as [Hcat Hlens].
  rewrite drop_0, take_ge in Hcat by lia. done.
Qed.

Lemma _flatten_dense_tensors_cases grads :
  _flatten_dense_tensors grads
  = match grads with
    | [] => Raise empty_tensor_list
    | _ => Ok (concat grads)
    end.
Proof. by destruct grads. Qed.

Variable all_reduce : Group → list T → Result (list T).

(** [allreduce_sequence_parallel_gradients], written out: the raise on
    no flagged parameter, the collective on the coalesced flagged
    gradients, the copy back. *)
Lemma allreduce_sequence_parallel_gradients_cases o2 (model : Model (TorchModule T)) :
  let grads := sequence_parallel_grads o2 model in
  let c := call_all_reduce (concat grads) tensor_model_parallel_group in
  allreduce_sequence_parallel_gradients all_reduce o2 model
  = match grads with
    | [] => ([], Raise empty_tensor_list)
    | _ => match all_reduce tensor_model_parallel_group (concat grads) with
           | Ok reduced =>
               ([c], Ok (copy_back o2 model (_unflatten_dense_tensors reduced grads)))
           | Raise e => ([c], Raise e)
           end
    end.
Proof.
  cbn zeta. unfold allreduce_sequence_parallel_gradients.
  rewrite collect_grads_sequence_parallel_grads.
  destruct (sequence_parallel_grads o2 model) as [|g grads]; [reflexivity|].
  unfold traced_bind, no_call, call, traced_ret. cbn.
  destruct (all_reduce _ _); reflexivity.
Qed.

End CoalescedAllReduce.

(** ** The gradient-synchronisation protocol of [training_step] *)
Section GradientSyncProtocol.
Import Schedule Batch GradSync Optimizers.
Context {T : Type}.
Variable all_reduce : Group → list T → Result (list T).
Variable optimizer_zero_grad :
  Model (TorchModule T) → Result (Model (TorchModule T)).
Variable optimizer_allreduce_main_grads :
  Model (TorchModule T) → Result (Model (TorchModule T)).
Variable allreduce_gradients :
  Model (TorchModule T) → Result (Model (TorchModule T)).
Variable run_schedule :
  FwdBwdFunction → ScheduleArgs → Model (TorchModule T) →
  Result (Model (TorchModule T) * list Qc).
Variable broadcast_from_last_rank : Qc → Result Qc.
Variable log : Qc → Result unit.

Abbreviation step :=
  (training_step all_reduce optimizer_zero_grad optimizer_allreduce_main_grads
     allreduce_gradients run_schedule broadcast_from_last_rank log).
Abbreviation all_return :=
  (collaborators_return all_reduce optimizer_zero_grad
     optimizer_allreduce_main_grads allreduce_gradients run_schedule
     broadcast_from_last_rank log).

Lemma count_app (f : Call T → bool) (a b : list (Call T)) :
  count f (a ++ b) = (count f a + count f b)%nat.
Proof. unfold count. by rewrite filter_app, length_app. Qed.

(** The condition guarding the sequence-parallel all-reduce. *)
Lemma sequence_parallel_condition (c : Cfg) :
  sequence_parallel_due c = true
  ↔ get (sequence_parallel c) false = true ∧ 1 < get (tensor_model_parallel_size c) 1.
Proof.
  unfold sequence_parallel_due. rewrite andb_true_iff, Z.ltb_lt. tauto.
Qed.

Lemma training_batch_for_pipeline_Ok ps gb :
  training_batch_for_pipeline ps gb
  = Ok (if parallel_state.is_pipeline_first_stage true ps
           || parallel_state.is_pipeline_last_stage true ps
        then Some [images gb; captions gb] else None).
Proof.
  unfold training_batch_for_pipeline. rewrite process_global_batch_unchecked.
  by destruct (_ || _).
Qed.

Lemma sequence_parallel_sync_cases (self : Self T) model1 :
  let o2 := megatron_amp_o2 self in
  let grads := sequence_parallel_grads o2 model1 in
  let c := call_all_reduce (concat grads) tensor_model_parallel_group in
  sequence_parallel_sync all_reduce self model1
  = if sequence_parallel_due (cfg self) then
      match grads with
      | [] => ([], Raise empty_tensor_list)
      | _ => match all_reduce tensor_model_parallel_group (concat grads) with
             | Ok reduced =>
                 ([c], Ok (copy_back o2 model1 (_unflatten_dense_tensors reduced grads)))
             | Raise e => ([c], Raise e)
             end
      end
    else ([], Ok model1).
Proof.
  cbn zeta. unfold sequence_parallel_sync. fold (sequence_parallel_due (cfg self)).
  destruct (sequence_parallel_due (cfg self)); [|reflexivity].
  apply allreduce_sequence_parallel_gradients_cases.
Qed.

Lemma main_gradient_sync_cases (self : Self T) model2 :
  main_gradient_sync optimizer_allreduce_main_grads allreduce_gradients self model2
  = if with_distributed_adam self then ([], Ok model2)
    else if megatron_amp_o2 self
    then ([call_optimizer_allreduce_main_grads], optimizer_allreduce_main_grads model2)
    else ([call_allreduce_gradients], allreduce_gradients model2).
Proof. reflexivity. Qed.

(** The step written out: where it can end, and with which calls
    made. *)
Lemma training_step_unfold (self : Self T) ps gb :
  ∃ b,
    training_batch_for_pipeline ps gb = Ok b
    ∧ let f := _get_fwd_bwd_function (cfg self) in
      let args := schedule_args self b in
      let zero := call_optimizer_zero_grad in
      let fwd := call_fwd_bwd_function f args in
      step self ps gb
      = match optimizer_zero_grad (model self) with
        | Raise e => ([zero], Raise e)
        | Ok model0 =>
          match run_schedule f args model0 with
          | Raise e => ([zero; fwd], Raise e)
          | Ok scheduled =>
            let sp := sequence_parallel_sync all_reduce self scheduled.1 in
            match sp.2 with
            | Raise e => (zero :: fwd :: sp.1, Raise e)
            | Ok model2 =>
              let main := main_gradient_sync optimizer_allreduce_main_grads
                            allreduce_gradients self model2 in
              match main.2 with
              | Raise e => (zero :: fwd :: sp.1 ++ main.1, Raise e)
              | Ok model3 =>
                let bc := call_broadcast_from_last_rank (mean_loss scheduled.2) in
                match broadcast_from_last_rank (mean_loss scheduled.2) with
                | Raise e => (zero :: fwd :: sp.1 ++ main.1 ++ [bc], Raise e)
                | Ok l =>
                  (zero :: fwd :: sp.1 ++ main.1 ++ [bc; call_log l],
                   match log l with
                   | Raise e => Raise e
                   | Ok _ => Ok (model3, l)
                   end)
                end
              end
            end
          end
        end.
Proof.
  eexists. split; [apply training_batch_for_pipeline_Ok|]. cbn zeta.
  unfold training_step. rewrite training_batch_for_pipeline_Ok.
  unfold traced_bind, call, no_call, traced_ret. cbn [fst snd].
  destruct (optimizer_zero_grad (model self)) as [model0|e]; [|reflexivity].
  cbn [fst snd app].
  match goal with
  | |- context [run_schedule ?f ?a ?m] =>
      destruct (run_schedule f a m) as [scheduled|e]; [|reflexivity]
  end.
  cbn [fst snd app].
  destruct (sequence_parallel_sync all_reduce self scheduled.1) as [sp [model2|e]];
    cbn [fst snd]; [|reflexivity].
  destruct (main_gradient_sync optimizer_allreduce_main_grads allreduce_gradients
              self model2) as [main [model3|e]];
    cbn [fst snd]; [|reflexivity].
  destruct (broadcast_from_last_rank _) as [l|e]; cbn [fst snd]; [|reflexivity].
  destruct (log l) as [[]|e]; cbn [fst snd]; by rewrite ?app_nil_r.
Qed.

(** Destructs every outcome the written-out step depends on. *)
Ltac step_destruct self :=
  destruct (optimizer_zero_grad (model self)) as [?model0|?e] eqn:?Hzero;
  [match goal with
   | |- context [run_schedule ?f ?a ?m] =>
       destruct (run_schedule f a m) as [[?model1 ?losses]|?e] eqn:?Hsched
   end;
   [cbn [fst snd]; rewrite ?sequence_parallel_sync_cases;
    destruct (sequence_parallel_due (cfg self)) eqn:?Hdue;
    [match goal with
     | |- context [sequence_parallel_grads ?o ?m] =>
         destruct (sequence_parallel_grads o m) as [|?g ?grads] eqn:?Hgrads
     end;
     [|match goal with
       | |- context [all_reduce ?g ?buf] =>
           destruct (all_reduce g buf) as [?reduced|?e] eqn:?Hred
       end]
    |];
    cbn [fst snd]; rewrite ?main_gradient_sync_cases;
    try (destruct (with_distributed_adam self) eqn:?Hwda;
         [|destruct (megatron_amp_o2 self) eqn:?Ho2;
           [match goal with
            | |- context [optimizer_allreduce_main_grads ?m] =>
                destruct (optimizer_allreduce_main_grads m) as [?model3|?e] eqn:?Hmain
            end
           |match goal with
            | |- context [allreduce_gradients ?m] =>
                destruct (allreduce_gradients m) as [?model3|?e] eqn:?Hraw
            end]];
         cbn [fst snd];
         try (match goal with
              | |- context [broadcast_from_last_rank ?l] =>
                  destruct (broadcast_from_last_rank l) as [?l'|?e] eqn:?Hbc
              end;
              [match goal with
               | |- context [log ?l] =>
                   destruct (log l) as [[]|?e] eqn:?Hlog
               end|]))
   |]
  |];
  cbn [fst snd calls result app].

Ltac step_cases self ps gb :=
  let b := fresh "b" in
  let Hb := fresh "Hb" in
  let Hstep := fresh "Hstep" in
  destruct (training_step_unfold self ps gb) as (b & Hb & Hstep);
  cbn zeta in Hstep; rewrite Hstep; clear Hstep;
  step_destruct self.

(** A step that returns has gone through every stage. *)
Lemma training_step_Ok (self : Self T) ps gb m l :
  result (step self ps gb) = Ok (m, l) →
  ∃ b model0 model1 losses sp model2 main,
    training_batch_for_pipeline ps gb = Ok b
    ∧ optimizer_zero_grad (model self) = Ok model0
    ∧ run_schedule (_get_fwd_bwd_function (cfg self)) (schedule_args self b) model0
      = Ok (model1, losses)
    ∧ sequence_parallel_sync all_reduce self model1 = (sp, Ok model2)
    ∧ main_gradient_sync optimizer_allreduce_main_grads allreduce_gradients
        self model2 = (main, Ok m)
    ∧ broadcast_from_last_rank (mean_loss losses) = Ok l
    ∧ log l = Ok tt
    ∧ calls (step self ps gb)
      = call_optimizer_zero_grad
        :: call_fwd_bwd_function (_get_fwd_bwd_function (cfg self))
             (schedule_args self b)
        :: sp ++ main
        ++ [call_broadcast_from_last_rank (mean_loss losses); call_log l].
Proof.
  destruct (training_step_unfold self ps gb) as (b & Hb & Hstep).
  cbn zeta in Hstep. rewrite Hstep. clear Hstep.
  destruct (optimizer_zero_grad (model self)) as [model0|e]; [|done].
  destruct (run_schedule _ _ model0) as [[model1 losses]|e] eqn:Hsched; [|done].
  cbn [fst snd].
  destruct (sequence_parallel_sync all_reduce self model1) as [sp [model2|e]] eqn:Hsp;
    cbn [fst snd]; [|done].
  destruct (main_gradient_sync optimizer_allreduce_main_grads allreduce_gradients
              self model2) as [main [model3|e]] eqn:Hmain;
    cbn [fst snd]; [|done].
  destruct (broadcast_from_last_rank (mean_loss losses)) as [l'|e] eqn:Hbc; [|done].
  destruct (log l') as [[]|e] eqn:Hlog; [|done].
  cbn. intros [= <- <-]. by exists b, model0, model1, losses, sp, model2, main.
Qed.

Lemma sequence_parallel_sync_Ok (self : Self T) model1 sp model2 :
  sequence_parallel_sync all_reduce self model1 = (sp, Ok model2) →
  let o2 := megatron_amp_o2 self in
  let grads := sequence_parallel_grads o2 model1 in
  (sequence_parallel_due (cfg self) = false ∧ sp = [] ∧ model2 = model1)
  ∨ (sequence_parallel_due (cfg self) = true
     ∧ grads ≠ []
     ∧ ∃ reduced,
         all_reduce tensor_model_parallel_group (concat grads) = Ok reduced
         ∧ sp = [call_all_reduce (concat grads) tensor_model_parallel_group]
         ∧ model2 = copy_back o2 model1 (_unflatten_dense_tensors reduced grads)).
Proof.
  rewrite sequence_parallel_sync_cases. cbn zeta.
  destruct (sequence_parallel_due (cfg self)).
  - destruct (sequence_parallel_grads _ model1) as [|g grads] eqn:Hgrads; [done|].
    destruct (all_reduce _ _) as [reduced|e] eqn:Hred; [|done].
    intros [= <- <-]. right. split; [done|]. split; [done|]. by exists reduced.
  - intros [= <- <-]. by left.
Qed.

Lemma main_gradient_sync_Ok (self : Self T) model2 main m :
  main_gradient_sync optimizer_allreduce_main_grads allreduce_gradients
    self model2 = (main, Ok m) →
  main = (if with_distributed_adam self then []
          else if megatron_amp_o2 self then [call_optimizer_allreduce_main_grads]
               else [call_allreduce_gradients])
  ∧ (if with_distributed_adam self then m = model2
     else if megatron_amp_o2 self then optimizer_allreduce_main_grads model2 = Ok m
          else allreduce_gradients model2 = Ok m).
Proof.
  rewrite main_gradient_sync_cases.
  destruct (with_distributed_adam self); [|destruct (megatron_amp_o2 self)];
    by intros [= <- <-].
Qed.

(** When every collaborator returns, the step returns unless the
    sequence-parallel step is due and finds no flagged parameter; it
    then raises after the schedule, before any gradient all-reduce. *)
Lemma training_step_returns (self : Self T) ps gb :
  all_return →
  ∃ b model0 model1 losses,
    training_batch_for_pipeline ps gb = Ok b
    ∧ optimizer_zero_grad (model self) = Ok model0
    ∧ run_schedule (_get_fwd_bwd_function (cfg self)) (schedule_args self b) model0
      = Ok (model1, losses)
    ∧ ((∃ m l, result (step self ps gb) = Ok (m, l))
       ↔ ¬ (sequence_parallel_due (cfg self) = true
            ∧ sequence_parallel_grads (megatron_amp_o2 self) model1 = []))
    ∧ (sequence_parallel_due (cfg self) = true →
       sequence_parallel_grads (megatron_amp_o2 self) model1 = [] →
       step self ps gb
       = ([call_optimizer_zero_grad;
           call_fwd_bwd_function (_get_fwd_bwd_function (cfg self))
             (schedule_args self b)],
          Raise empty_tensor_list)).
Proof.
  intros (Hz & Hs & Ha & Hm & Hr & Hbc & Hlog).
  destruct (training_step_unfold self ps gb) as (b & Hb & Hstep).
  cbn zeta in Hstep. rewrite Hstep. clear Hstep.
  destruct (Hz (model self)) as [model0 Hzero]. rewrite Hzero.
  destruct (Hs (_get_fwd_bwd_function (cfg self)) (schedule_args self b) model0)
    as [[model1 losses] Hsched].
  rewrite Hsched. cbn [fst snd].
  exists b, model0, model1, losses.
  split; [done|]. split; [done|]. split; [done|].
  rewrite sequence_parallel_sync_cases.
  destruct (sequence_parallel_due (cfg self)) eqn:Hdue.
  + destruct (sequence_parallel_grads (megatron_amp_o2 self) model1)
      as [|g grads] eqn:Hgrads.
    * cbn. split; [|done]. split; [intros (? & ? & ?); done | intros H; by destruct H].
    * destruct (Ha (concat (g :: grads))) as [reduced Hred]. rewrite Hred.
      cbn [fst snd]. rewrite main_gradient_sync_cases.
      split; [|done]. split; [intros _ [_ ?]; done|intros _].
      destruct (with_distributed_adam self); [|destruct (megatron_amp_o2 self)];
        cbn [fst snd].
      -- destruct (Hbc (mean_loss losses)) as [l' ->].
         destruct (Hlog l') as [[] ->]. eauto.
      -- match goal with
         | |- context [optimizer_allreduce_main_grads ?m] =>
             destruct (Hm m) as [model3 ->]
         end.
         cbn. destruct (Hbc (mean_loss losses)) as [l' ->].
         destruct (Hlog l') as [[] ->]. eauto.
      -- match goal with
         | |- context [allreduce_gradients ?m] => destruct (Hr m) as [model3 ->]
         end.
         cbn. destruct (Hbc (mean_loss losses)) as [l' ->].
         destruct (Hlog l') as [[] ->]. eauto.
  + cbn [fst snd]. rewrite main_gradient_sync_cases.
    split; [|done]. split; [intros _ [? _]; done|intros _].
    destruct (with_distributed_adam self); [|destruct (megatron_amp_o2 self)];
      cbn [fst snd].
    * destruct (Hbc (mean_loss losses)) as [l' ->].
         destruct (Hlog l') as [[] ->]. eauto.
    * destruct (Hm model1) as [model3 ->].
      cbn. destruct (Hbc (mean_loss losses)) as [l' ->].
         destruct (Hlog l') as [[] ->]. eauto.
    * destruct (Hr model1) as [model3 ->].
      cbn. destruct (Hbc (mean_loss losses)) as [l' ->].
         destruct (Hlog l') as [[] ->]. eauto.
Qed.

(** X15.  A training step that returns has followed the decision table
    after the schedule: under the distributed optimizer no
    gradient all-reduce of its own; otherwise, with O2, exactly one
    all-reduce of the optimizer's main gradients and no raw one;
    otherwise exactly one all-reduce of the raw parameter gradients and
    no main-gradient one.  With the standard optimizer, O2 on and
    sequence parallelism off that is one main-gradient all-reduce and no
    sequence-parallel one.  No step makes more than the table's
    all-reduces.  When every collaborator returns, the step returns
    unless the sequence-parallel step is due and the scheduled model has
    no flagged parameter; it then raises while flattening, after the
    schedule and before the table is reached. *)
Theorem gradient_sync_decision_table (self : Self T) ps gb :
  let out := step self ps gb in
  let o2 := megatron_amp_o2 self in
  let table_main :=
    (if with_distributed_adam self then 0 else if o2 then 1 else 0)%nat in
  let table_raw :=
    (if with_distributed_adam self then 0 else if o2 then 0 else 1)%nat in
  (∀ m l, result out = Ok (m, l) →
     ∃ args rest,
       calls out
       = call_optimizer_zero_grad
         :: call_fwd_bwd_function (_get_fwd_bwd_function (cfg self)) args :: rest
       ∧ count is_main_grads_allreduce rest = table_main
       ∧ count is_raw_gradients_allreduce rest = table_raw
       ∧ (with_distributed_adam self = false →
          o2 = true →
          get (sequence_parallel (cfg self)) false = false →
          count is_main_grads_allreduce rest = 1%nat
          ∧ count is_sequence_parallel_allreduce rest = 0%nat))
  ∧ (count is_main_grads_allreduce (calls out) ≤ table_main
     ∧ count is_raw_gradients_allreduce (calls out) ≤ table_raw)%nat
  ∧ (all_return →
     ∃ model0 args model1 losses,
       optimizer_zero_grad (model self) = Ok model0
       ∧ run_schedule (_get_fwd_bwd_function (cfg self)) args model0
         = Ok (model1, losses)
       ∧ ((∃ m l, result out = Ok (m, l))
          ↔ ¬ (sequence_parallel_due (cfg self) = true
               ∧ sequence_parallel_grads o2 model1 = []))
       ∧ (sequence_parallel_due (cfg self) = true →
          sequence_parallel_grads o2 model1 = [] →
          out = ([call_optimizer_zero_grad;
                  call_fwd_bwd_function (_get_fwd_bwd_function (cfg self)) args],
                 Raise empty_tensor_list))).
Proof.
  cbn zeta. split; [|split].
  - intros m l. step_cases self ps gb; intros Hres; try discriminate Hres.
    all: eexists _, _; (split; [reflexivity|]); cbn; repeat split; try done.
    all: exfalso; apply sequence_parallel_condition in Hdue as [Hsp' _];
      congruence.
  - step_cases self ps gb; unfold count; simpl;
      destruct (with_distributed_adam self), (megatron_amp_o2 self); simpl;
      first [lia | done].
  - intros Hret.
    destruct (training_step_returns self ps gb Hret)
      as (b & model0 & model1 & losses & _ & Hzero & Hsched & Hiff & Hraise).
    by exists model0, (schedule_args self b), model1, losses.
Qed.

(** X16.  No step makes more than one all-reduce over the
    tensor-parallel group, and none unless sequence parallelism
    is on and the tensor-parallel size exceeds 1.  In a step that
    returns it is made, once, exactly under that condition, and the
    optimizer-dependent reduction is made all the same, on the model the
    copy back has left.  It is one collective on the coalesced gradients
    of the flagged parameters of all modules, in [parameters] order, of
    which there is at least one; its result is copied back buffer by
    buffer, leaving everything else as it was.  When every collaborator
    returns, the step returns unless that condition holds and no
    parameter is flagged: it then raises while flattening, and makes no
    gradient all-reduce at all. *)
Theorem sequence_parallel_allreduce_iff (self : Self T) ps gb :
  let out := step self ps gb in
  let o2 := megatron_amp_o2 self in
  let due := get (sequence_parallel (cfg self)) false = true
             ∧ 1 < get (tensor_model_parallel_size (cfg self)) 1 in
  ((count is_sequence_parallel_allreduce (calls out) ≤ 1)%nat
   ∧ (count is_sequence_parallel_allreduce (calls out) = 1%nat → due))
  ∧ (∀ m l, result out = Ok (m, l) →
       (count is_sequence_parallel_allreduce (calls out) = 1%nat ↔ due)
       ∧ (count is_sequence_parallel_allreduce (calls out) = 0%nat ↔ ¬ due)
       ∧ count is_main_grads_allreduce (calls out)
         = (if with_distributed_adam self then 0 else if o2 then 1 else 0)%nat
       ∧ count is_raw_gradients_allreduce (calls out)
         = (if with_distributed_adam self then 0 else if o2 then 0 else 1)%nat
       ∧ (due →
          ∃ model0 args model1 losses reduced model2,
            optimizer_zero_grad (model self) = Ok model0
            ∧ run_schedule (_get_fwd_bwd_function (cfg self)) args model0
              = Ok (model1, losses)
            ∧ sequence_parallel_grads o2 model1 ≠ []
            ∧ call_all_reduce (concat (sequence_parallel_grads o2 model1))
                tensor_model_parallel_group ∈ calls out
            ∧ all_reduce tensor_model_parallel_group
                (concat (sequence_parallel_grads o2 model1)) = Ok reduced
            ∧ sequence_parallel_grads o2 model2
              = _unflatten_dense_tensors reduced (sequence_parallel_grads o2 model1)
            ∧ (length reduced = length (concat (sequence_parallel_grads o2 model1)) →
               concat (sequence_parallel_grads o2 model2) = reduced
               ∧ length <$> sequence_parallel_grads o2 model2
                 = length <$> sequence_parallel_grads o2 model1)
            ∧ blank_model o2 model2 = blank_model o2 model1
            ∧ result (main_gradient_sync optimizer_allreduce_main_grads
                        allreduce_gradients self model2) = Ok m))
  ∧ (all_return →
     ∃ model0 args model1 losses,
       optimizer_zero_grad (model self) = Ok model0
       ∧ run_schedule (_get_fwd_bwd_function (cfg self)) args model0
         = Ok (model1, losses)
       ∧ ((∃ m l, result out = Ok (m, l))
          ↔ ¬ (due ∧ sequence_parallel_grads o2 model1 = []))
       ∧ (due →
          sequence_parallel_grads o2 model1 = [] →
          result out = Raise empty_tensor_list
          ∧ count is_sequence_parallel_allreduce (calls out) = 0%nat
          ∧ count is_main_grads_allreduce (calls out) = 0%nat
          ∧ count is_raw_gradients_allreduce (calls out) = 0%nat)).
Proof.
  cbn zeta. split; [|split].
  - generalize (sequence_parallel_condition (cfg self)).
    step_cases self ps gb; intros Hcond; unfold count; simpl;
      (split; [lia|]); intros H; first [discriminate H | by apply Hcond].
  - intros m l Hres.
    destruct (training_step_Ok self ps gb m l Hres)
      as (b & model0 & model1 & losses & sp & model2 & main
          & Hb & Hzero & Hsched & Hsp & Hmain & Hbc & Hlog & Hcalls).
    rewrite Hcalls. clear Hcalls.
    change (?a :: ?b :: ?l) with ([a; b] ++ l).
    rewrite !count_app.
    destruct (main_gradient_sync_Ok self model2 main m Hmain) as [-> Hm].
    rewrite <- sequence_parallel_condition.
    destruct (sequence_parallel_sync_Ok self model1 sp model2 Hsp)
      as [(Hdue & -> & ->)|(Hdue & Hne & reduced & Hred & -> & Hm2)];
      cbn zeta in *; rewrite Hdue.
    + repeat split; try done;
        destruct (with_distributed_adam self), (megatron_amp_o2 self); done.
    + split; [|split; [|split; [|split]]]; try done;
        try (destruct (with_distributed_adam self), (megatron_amp_o2 self); done).
      intros _.
      exists model0, (schedule_args self b), model1, losses, reduced, model2.
      split; [done|]. split; [done|]. split; [done|].
      split; [set_solver|]. split; [done|].
      pose proof (copy_back_unflatten (megatron_amp_o2 self) model1 reduced) as Hcb.
      cbn zeta in Hcb. rewrite !collect_grads_sequence_parallel_grads in Hcb.
      rewrite <- Hm2 in Hcb. destruct Hcb as [Hcb1 Hcb2].
      split; [done|]. split; [|split; [done|by rewrite Hmain]].
      intros Hlen. rewrite Hcb1. by apply unflatten_reduced.
  - intros Hret.
    destruct (training_step_returns self ps gb Hret)
      as (b & model0 & model1 & losses & _ & Hzero & Hsched & Hiff & Hraise).
    exists model0, (schedule_args self b), model1, losses.
    split; [done|]. split; [done|].
    rewrite <- sequence_parallel_condition. split; [done|].
    intros Hdue Hgrads. by rewrite (Hraise Hdue Hgrads).
Qed.

(** C10.  [training_step] partitions without an expected size: for a
    batch of any size the partitioner returns the two tensors, and once
    [zero_grad] has returned the schedule is called on the partitioned
    batch.  An exception that ends the step is one a collaborator raised
    or the one raised on flattening no gradient; none comes from the
    size of the batch, and when every collaborator returns and the
    sequence-parallel step is not due the step returns.  The validation
    (and test) step passes
    [cfg.global_batch_size], and raises exactly on a batch smaller than
    its floor quotient by the data-parallel world size. *)
Theorem training_step_skips_batch_size_check (self : Self T) ps gb
    (run_forward : option (list Tensor) → list Qc) :
  let out := step self ps gb in
  let f := _get_fwd_bwd_function (cfg self) in
  process_global_batch ps gb None = Ok [images gb; captions gb]
  ∧ (∃ b,
       training_batch_for_pipeline ps gb = Ok b
       ∧ (∀ model0, optimizer_zero_grad (model self) = Ok model0 →
            call_fwd_bwd_function f (schedule_args self b) ∈ calls out)
       ∧ (∀ e, result out = Raise e →
            optimizer_zero_grad (model self) = Raise e
            ∨ (∃ model0, run_schedule f (schedule_args self b) model0 = Raise e)
            ∨ e = empty_tensor_list
            ∨ (∃ buffer, all_reduce tensor_model_parallel_group buffer = Raise e)
            ∨ (∃ m, optimizer_allreduce_main_grads m = Raise e)
            ∨ (∃ m, allreduce_gradients m = Raise e)
            ∨ (∃ l, broadcast_from_last_rank l = Raise e)
            ∨ (∃ l, log l = Raise e))
       ∧ (all_return →
          sequence_parallel_due (cfg self) = false →
          ∃ m l, result out = Ok (m, l)))
  ∧ validation_batch_for_pipeline (cfg self) ps gb
    = (b ← process_global_batch ps gb (Some (global_batch_size (cfg self))); Ok (Some b))
  ∧ (Validation.validation_step run_forward (cfg self) ps gb
     = Raise (NotImplementedError "Please turn on drop_last.")
     ↔ shape0 (images gb)
       < global_batch_size (cfg self)
         `div` parallel_state.get_data_parallel_world_size ps).
Proof.
  cbn zeta. split; [reflexivity|]. split; [|split; [reflexivity|]].
  - eexists. split; [apply training_batch_for_pipeline_Ok|].
    split; [|split].
    + intros model0' Hzero'.
      step_cases self ps gb; try congruence;
        rewrite training_batch_for_pipeline_Ok in Hb; injection Hb as <-;
        apply list_elem_of_further, list_elem_of_here.
    + intros e'.
      step_cases self ps gb; intros [= <-];
        rewrite training_batch_for_pipeline_Ok in Hb; injection Hb as <-;
        eauto 14.
    + intros Hret Hdue.
      destruct (training_step_returns self ps gb Hret)
        as (b & model0 & model1 & losses & _ & _ & _ & Hiff & _).
      apply Hiff. intros [Hdue' _]. congruence.
  - unfold Validation.validation_step, validation_batch_for_pipeline.
    rewrite process_global_batch_checked.
    destruct (Z.ltb_spec (shape0 (images gb))
                (global_batch_size (cfg self)
                 `div` parallel_state.get_data_parallel_world_size ps)); cbn.
    + tauto.
    + split; [discriminate | lia].
Qed.

Lemma grad_scaler_iff (p : PrecisionValue) :
  match p with PInt 16 => true | _ => false end = true ↔ p = PInt 16.
Proof.
  destruct (decide (p = PInt 16)) as [->|Hne]; [done|].
  split; [|done]. intros H. exfalso. apply Hne. revert H.
  repeat match goal with
         | |- context [match ?x with _ => _ end] => is_var x; destruct x
         end; done.
Qed.

(** X6.  A training step calls, in this order: [zero_grad]; the selected
    schedule, with [forward_only=False], the trainer's gradient scaler
    exactly under precision 16 and the sequence-parallel flag of the
    configuration; at most one all-reduce over the tensor-parallel group;
    at most one of the optimizer's main-gradient all-reduce and the raw
    gradient all-reduce; the broadcast of the mean loss; and last the
    logging of what the broadcast left.  A step cut short by an exception
    has made a prefix of these calls, [zero_grad] at least; a step that
    returns has made them all, and returns what the broadcast left in
    the loss. *)
Theorem training_step_call_order (self : Self T) ps gb :
  let out := step self ps gb in
  ∃ b sp main loss returned,
    training_batch_for_pipeline ps gb = Ok b
    ∧ let args := schedule_args self b in
      let full :=
        call_optimizer_zero_grad
        :: call_fwd_bwd_function (_get_fwd_bwd_function (cfg self)) args
        :: sp ++ main
        ++ [call_broadcast_from_last_rank loss; call_log returned] in
      forward_only args = false
      ∧ (grad_scaler args = true ↔ precision (cfg self) = PInt 16)
      ∧ sequence_parallel_enabled_arg args = get (sequence_parallel (cfg self)) false
      ∧ (sp = [] ∨ ∃ buffer, sp = [call_all_reduce buffer tensor_model_parallel_group])
      ∧ (main = [] ∨ main = [call_optimizer_allreduce_main_grads]
         ∨ main = [call_allreduce_gradients])
      ∧ (∃ rest, calls out = call_optimizer_zero_grad :: rest)
      ∧ calls out `prefix_of` full
      ∧ (∀ m l, result out = Ok (m, l) →
           calls out = full
           ∧ broadcast_from_last_rank loss = Ok l
           ∧ returned = l).
Proof.
  cbn zeta.
  destruct (training_step_unfold self ps gb) as (b & Hb & Hstep).
  cbn zeta in Hstep.
  exists b,
    (match optimizer_zero_grad (model self) with
     | Ok model0 =>
         match run_schedule (_get_fwd_bwd_function (cfg self))
                 (schedule_args self b) model0 with
         | Ok scheduled => (sequence_parallel_sync all_reduce self scheduled.1).1
         | Raise _ => []
         end
     | Raise _ => []
     end),
    (if with_distributed_adam self then []
     else if megatron_amp_o2 self then [call_optimizer_allreduce_main_grads]
          else [call_allreduce_gradients]),
    (match optimizer_zero_grad (model self) with
     | Ok model0 =>
         match run_schedule (_get_fwd_bwd_function (cfg self))
                 (schedule_args self b) model0 with
         | Ok scheduled => mean_loss scheduled.2
         | Raise _ => 0%Qc
         end
     | Raise _ => 0%Qc
     end),
    (match optimizer_zero_grad (model self) with
     | Ok model0 =>
         match run_schedule (_get_fwd_bwd_function (cfg self))
                 (schedule_args self b) model0 with
         | Ok scheduled =>
             match broadcast_from_last_rank (mean_loss scheduled.2) with
             | Ok l => l
             | Raise _ => 0%Qc
             end
         | Raise _ => 0%Qc
         end
     | Raise _ => 0%Qc
     end).
  split; [exact Hb|]. rewrite Hstep. clear Hstep.
  split; [reflexivity|]. split; [apply grad_scaler_iff|]. split; [reflexivity|].
  step_destruct self.
  all: split; [first [by left | right; eexists; reflexivity]|].
  all: split;
    [destruct (with_distributed_adam self), (megatron_amp_o2 self); eauto|].
  all: split; [eexists; reflexivity|].
  all: split; [eexists; cbn; reflexivity|].
  all: intros m l Hres; try discriminate Hres; injection Hres as <- <-; by split.
Qed.

(** X7.  The schedule is given no gradient-synchronisation context
    exactly under the standard optimizer with O2 off or sequence
    parallelism on; a step that returns has then made, after the
    schedule, exactly one of the main-gradient and the raw gradient
    all-reduce, besides the all-reduce over the tensor-parallel group when
    sequence parallelism is on with a tensor-parallel size above 1.  Under
    the distributed optimizer the context is the optimizer's [no_sync]
    with [greedy_grad_copy] equal to O2, and no step makes a
    main-gradient or raw gradient all-reduce. *)
Theorem sync_context_and_allreduce (self : Self T) ps gb :
  let out := step self ps gb in
  ∃ b,
    training_batch_for_pipeline ps gb = Ok b
    ∧ let args := schedule_args self b in
      (custom_sync_context_handler args = None
       ↔ with_distributed_adam self = false
         ∧ (megatron_amp_o2 self = false
            ∨ get (sequence_parallel (cfg self)) false = true))
      ∧ (with_distributed_adam self = true →
         custom_sync_context_handler args
         = Some (optimizer_no_sync_greedy_grad_copy (megatron_amp_o2 self))
         ∧ count is_main_grads_allreduce (calls out) = 0%nat
         ∧ count is_raw_gradients_allreduce (calls out) = 0%nat)
      ∧ (∀ m l, result out = Ok (m, l) →
           call_fwd_bwd_function (_get_fwd_bwd_function (cfg self)) args ∈ calls out
           ∧ (custom_sync_context_handler args = None →
              (count is_main_grads_allreduce (calls out)
               + count is_raw_gradients_allreduce (calls out) = 1)%nat
              ∧ count is_sequence_parallel_allreduce (calls out)
                = (if sequence_parallel_due (cfg self) then 1 else 0)%nat)).
Proof.
  cbn zeta.
  destruct (training_step_unfold self ps gb) as (b & Hb & Hstep).
  cbn zeta in Hstep. exists b. split; [exact Hb|].
  rewrite Hstep. clear Hstep. cbn [custom_sync_context_handler schedule_args].
  unfold select_custom_sync_context_handler.
  split; [|split].
  - destruct (with_distributed_adam self), (megatron_amp_o2 self),
      (get (sequence_parallel (cfg self)) false); cbn;
      split; try done; try (intros (? & [?|?]); done); eauto.
  - intros Hd. rewrite Hd. split; [by destruct (megatron_amp_o2 self)|].
    revert Hd. step_destruct self; intros Hd; try discriminate Hd; done.
  - intros m l. step_destruct self; intros Hres; try discriminate Hres.
    all: (split; [apply list_elem_of_further, list_elem_of_here|]).
    all: unfold count; simpl.
    all: destruct (megatron_amp_o2 self),
           (get (sequence_parallel (cfg self)) false);
      simpl; intros Hnone; try discriminate Hnone; done.
Qed.

(** X8.  Under the distributed optimizer, with sequence parallelism off
    or a tensor-parallel size of at most 1, no step makes a collective on
    gradients.  The step returns exactly when [zero_grad], the schedule,
    the broadcast and the logging do: its calls are then these four, the
    gradients it leaves are those the schedule left, and the loss it
    returns is what the broadcast left of the mean of the schedule's
    losses. *)
Theorem distributed_step_keeps_schedule_gradients (self : Self T) ps gb :
  with_distributed_adam self = true →
  get (sequence_parallel (cfg self)) false = false
  ∨ get (tensor_model_parallel_size (cfg self)) 1 ≤ 1 →
  let out := step self ps gb in
  (count is_sequence_parallel_allreduce (calls out) = 0%nat
   ∧ count is_main_grads_allreduce (calls out) = 0%nat
   ∧ count is_raw_gradients_allreduce (calls out) = 0%nat)
  ∧ ∃ b,
      training_batch_for_pipeline ps gb = Ok b
      ∧ let f := _get_fwd_bwd_function (cfg self) in
        let args := schedule_args self b in
        (∀ m l, result out = Ok (m, l) →
           ∃ model0 losses,
             optimizer_zero_grad (model self) = Ok model0
             ∧ run_schedule f args model0 = Ok (m, losses)
             ∧ broadcast_from_last_rank (mean_loss losses) = Ok l
             ∧ log l = Ok tt
             ∧ calls out
               = [call_optimizer_zero_grad; call_fwd_bwd_function f args;
                  call_broadcast_from_last_rank (mean_loss losses); call_log l])
        ∧ (∀ model0 m losses l,
             optimizer_zero_grad (model self) = Ok model0 →
             run_schedule f args model0 = Ok (m, losses) →
             broadcast_from_last_rank (mean_loss losses) = Ok l →
             log l = Ok tt →
             out = ([call_optimizer_zero_grad; call_fwd_bwd_function f args;
                     call_broadcast_from_last_rank (mean_loss losses); call_log l],
                    Ok (m, l))).
Proof.
  intros Hwda Hsp. cbn zeta.
  assert (Hcond : sequence_parallel_due (cfg self) = false).
  { unfold sequence_parallel_due. destruct Hsp as [->|Hle]; [apply andb_false_r|].
    apply andb_false_iff. left. apply Z.ltb_ge. exact Hle. }
  destruct (training_step_unfold self ps gb) as (b & Hb & Hstep).
  cbn zeta in Hstep. rewrite Hstep. clear Hstep.
  split.
  - revert Hwda Hcond. step_destruct self; intros Hwda' Hcond';
      try discriminate Hwda'; try discriminate Hcond'; done.
  - exists b. split; [exact Hb|]. split.
    + intros m l. revert Hwda Hcond.
      step_destruct self; intros Hwda' Hcond' Hres;
        try discriminate Hwda'; try discriminate Hcond'; try discriminate Hres;
        injection Hres as <- <-; eauto 10.
    + intros model0 m losses l Hzero Hsched Hbc Hlog.
      rewrite Hzero, Hsched. cbn [fst snd].
      rewrite sequence_parallel_sync_cases, Hcond. cbn [fst snd].
      rewrite main_gradient_sync_cases, Hwda. cbn [fst snd].
      by rewrite Hbc, Hlog.
Qed.

End GradientSyncProtocol.

(** ** Validation averaging *)
Section ValidationAveraging.
Import Validation.
Local Open Scope Qc_scope.

Lemma accumulate_pair (n t : Qc) (p : Qc * Qc) :
  accumulate (n, t) (as_array p) = Ok (n + p.2, t + p.1 * p.2).
Proof.
  destruct p as [l s]. unfold accumulate, as_array, np_dot, builtin_sum. cbn.
  do 2 f_equal; ring.
Qed.

Lemma accumulate_all_pairs (pairs : list (Qc * Qc)) (n t : Qc) :
  accumulate_all (n, t) (as_array <$> pairs)
  = Ok (n + total_size pairs, t + weighted_sum pairs).
Proof.
  revert n t. induction pairs as [|p pairs IH]; intros n t.
  - cbn. do 2 f_equal; ring.
  - cbn [fmap list_fmap accumulate_all]. rewrite accumulate_pair. cbn [mbind result_bind].
    rewrite IH. cbn [total_size weighted_sum foldr].
    fold (total_size pairs) (weighted_sum pairs). do 2 f_equal; ring.
Qed.

(** On its own argument, a non-empty list of (loss, size) pairs whose
    sizes do not sum to zero, [_get_average_metric] is the size-weighted
    average. *)
Lemma _get_average_metric_weighted (pairs : list (Qc * Qc)) :
  pairs ≠ [] →
  total_size pairs ≠ 0 →
  _get_average_metric (as_array <$> pairs) = Ok (finite (weighted_average pairs)).
Proof.
  intros Hne Hsz. unfold _get_average_metric.
  rewrite accumulate_all_pairs. cbn [mbind result_bind].
  destruct pairs as [|p pairs]; [done|]. cbn [fmap list_fmap].
  rewrite !Qcplus_0_l.
  destruct (Qeq_bool (total_size (p :: pairs)) 0) eqn:Hz.
  - exfalso. apply Hsz, Qc_is_canon. apply Qeq_bool_iff in Hz. exact Hz.
  - reflexivity.
Qed.

(** The example of the spec, on the averaging function itself. *)
Lemma _get_average_metric_example :
  _get_average_metric [[Qc_of_Z 2; Qc_of_Z 3]; [Qc_of_Z 4; Qc_of_Z 1]]
  = Ok (finite (Q2Qc (5 # 2)))
  ∧ plain_mean [(Qc_of_Z 2, Qc_of_Z 3); (Qc_of_Z 4, Qc_of_Z 1)] = Qc_of_Z 3.
Proof.
  split.
  - etrans; [apply (_get_average_metric_weighted
                      [(Qc_of_Z 2, Qc_of_Z 3); (Qc_of_Z 4, Qc_of_Z 1)])|].
    + done.
    + intros H. apply (f_equal this) in H. vm_compute in H. discriminate.
    + do 2 f_equal. by apply Qc_is_canon.
  - by apply Qc_is_canon.
Qed.

(** C7, on the code.  One validation step over two micro-batches of 8
    samples with losses 2 and 4 returns both (loss, size) pairs, yet
    [validation_epoch_end] averages [output[0]] of each step only: the
    averaged metric is 2, where the size-weighted average of the two
    pairs is 3. *)
Theorem validation_epoch_end_drops_micro_batches :
  let ps := Samples.rank_of 0 1 2 in
  let pairs := [(Qc_of_Z 2, Qc_of_Z 8); (Qc_of_Z 4, Qc_of_Z 8)] in
  validation_step Samples.forward_two_losses Samples.cfg_default ps
    (Samples.batch_of 16)
  = Ok (as_array <$> pairs)
  ∧ validation_epoch_end ps [as_array <$> pairs] = Ok (Some (finite (Qc_of_Z 2)))
  ∧ weighted_average pairs = Qc_of_Z 3.
Proof.
  cbn zeta. split; [reflexivity|]. split.
  - unfold validation_epoch_end. cbn [parallel_state.is_pipeline_last_stage].
    change (mapM first [as_array <$> [(Qc_of_Z 2, Qc_of_Z 8); (Qc_of_Z 4, Qc_of_Z 8)]])
      with (Ok [as_array (Qc_of_Z 2, Qc_of_Z 8)]).
    cbn [mbind result_bind].
    change [as_array (Qc_of_Z 2, Qc_of_Z 8)]
      with (as_array <$> [(Qc_of_Z 2, Qc_of_Z 8)]).
    rewrite _get_average_metric_weighted.
    + cbn. do 3 f_equal. by apply Qc_is_canon.
    + done.
    + intros H. apply (f_equal this) in H. vm_compute in H. discriminate.
  - by apply Qc_is_canon.
Qed.

End ValidationAveraging.

(** ** Checkpoint hooks *)
Section CheckpointHooks.
Import Checkpoint.
Local Open Scope nat_scope.
Context {M SD : Type}.
Variable state_dict_for_save_checkpoint : parallel_state.t → M → SD.
Variable load_state_dict_strict : parallel_state.t → M → SD → M * option Exception.









End CheckpointHooks.

(** ** The properties on the sample data *)
Section OnSamples.
Import Schedule Batch GradSync Optimizers Checkpoint.

(** The sample collaborators return. *)
Lemma sample_collaborators_return (broadcast : Qc → Result Qc) :
  returns broadcast →
  collaborators_return Samples.all_reduce_doubling Samples.returning
    Samples.returning Samples.returning Samples.schedule_two_losses broadcast
    Samples.logging.
Proof.
  intros Hbc. unfold collaborators_return, returns.
  repeat apply conj; try exact Hbc; intros; eexists; reflexivity.
Defined.

(** C1, on the code.  Standard optimizer, O2 and sequence parallelism
    on, two tensor-parallel ranks, and a model none of whose parameters
    is flagged: the step raises while flattening, after the schedule,
    and the main-gradient all-reduce of the table is never made.  With a
    flagged parameter in the model the same step returns, having made
    it once. *)
Theorem decision_table_not_reached_without_flagged_parameter :
  let cfg := Samples.with_tensor_parallel 2 true Samples.cfg_default in
  let self := Samples.self_unflagged cfg false true in
  let out := Samples.sample_step Samples.returning self
               (Samples.rank_of 0 1 1) (Samples.batch_of 16) in
  let out_flagged := Samples.sample_step Samples.returning
                       (Samples.self_of cfg false true)
                       (Samples.rank_of 0 1 1) (Samples.batch_of 16) in
  with_distributed_adam self = false
  ∧ megatron_amp_o2 self = true
  ∧ out
    = ([call_optimizer_zero_grad;
        call_fwd_bwd_function forward_backward_no_pipelining
          (schedule_args self
             (Some [images (Samples.batch_of 16); captions (Samples.batch_of 16)]))],
       Raise empty_tensor_list)
  ∧ count is_main_grads_allreduce (calls out) = 0%nat
  ∧ (∃ m l, result out_flagged = Ok (m, l))
  ∧ count is_main_grads_allreduce (calls out_flagged) = 1%nat.
Proof.
  repeat split. eexists _, _. reflexivity.
Qed.

Lemma gradient_sync_decision_table_witness :
  let self := Samples.self_of Samples.cfg_default false true in
  let out := Samples.sample_step Samples.returning self
               (Samples.rank_of 0 1 1) (Samples.batch_of 16) in
  ∃ m l args rest,
    result out = Ok (m, l)
    ∧ calls out
      = call_optimizer_zero_grad
        :: call_fwd_bwd_function forward_backward_no_pipelining args :: rest
    ∧ count is_main_grads_allreduce rest = 1%nat
    ∧ count is_sequence_parallel_allreduce rest = 0%nat.
Proof.
  intros self out.
  destruct (gradient_sync_decision_table Samples.all_reduce_doubling
              Samples.returning Samples.returning Samples.returning
              Samples.schedule_two_losses Samples.returning Samples.logging
              self (Samples.rank_of 0 1 1) (Samples.batch_of 16))
    as (Htable & _ & Hret).
  destruct (Hret (sample_collaborators_return Samples.returning
                    ltac:(intros a; eexists; reflexivity)))
    as (model0 & args0 & model1 & losses & _ & _ & Hiff & _).
  destruct (proj2 Hiff) as (m & l & Hres).
  { intros [Hdue _]. vm_compute in Hdue. discriminate Hdue. }
  destruct (Htable m l Hres) as (args & rest & Hcalls & _ & _ & Hcase).
  exists m, l, args, rest. split; [exact Hres|]. split; [exact Hcalls|].
  apply Hcase; reflexivity.
Defined.

(** C2, on the code.  Sequence parallelism on, two tensor-parallel
    ranks, standard optimizer without O2, and a model none of whose
    parameters is flagged: the step raises while flattening and makes
    neither the all-reduce over the tensor-parallel group nor the raw
    gradient all-reduce of the table.  With a flagged parameter in the
    model the same step returns, having made each once. *)
Theorem sequence_parallel_allreduce_not_made_without_flagged_parameter :
  let cfg := Samples.with_tensor_parallel 2 true Samples.cfg_default in
  let self := Samples.self_unflagged cfg false false in
  let out := Samples.sample_step Samples.returning self
               (Samples.rank_of 0 1 1) (Samples.batch_of 16) in
  let out_flagged := Samples.sample_step Samples.returning
                       (Samples.self_of cfg false false)
                       (Samples.rank_of 0 1 1) (Samples.batch_of 16) in
  get (sequence_parallel cfg) false = true
  ∧ 1 < get (tensor_model_parallel_size cfg) 1
  ∧ result out = Raise empty_tensor_list
  ∧ count is_sequence_parallel_allreduce (calls out) = 0%nat
  ∧ count is_raw_gradients_allreduce (calls out) = 0%nat
  ∧ (∃ m l, result out_flagged = Ok (m, l))
  ∧ count is_sequence_parallel_allreduce (calls out_flagged) = 1%nat
  ∧ count is_raw_gradients_allreduce (calls out_flagged) = 1%nat.
Proof.
  repeat split. eexists _, _. reflexivity.
Qed.

Lemma sequence_parallel_allreduce_iff_witness :
  let self := Samples.self_of (Samples.with_tensor_parallel 2 true Samples.cfg_default)
                false false in
  let out := Samples.sample_step Samples.returning self
               (Samples.rank_of 0 1 1) (Samples.batch_of 16) in
  ∃ m l,
    result out = Ok (m, l)
    ∧ count is_sequence_parallel_allreduce (calls out) = 1%nat
    ∧ count is_raw_gradients_allreduce (calls out) = 1%nat.
Proof.
  intros self out.
  destruct (sequence_parallel_allreduce_iff Samples.all_reduce_doubling
              Samples.returning Samples.returning Samples.returning
              Samples.schedule_two_losses Samples.returning Samples.logging
              self (Samples.rank_of 0 1 1) (Samples.batch_of 16))
    as (_ & Hok & Hret).
  destruct (Hret (sample_collaborators_return Samples.returning
                    ltac:(intros a; eexists; reflexivity)))
    as (model0 & args0 & model1 & losses & Hzero & Hsched & Hiff & _).
  destruct (proj2 Hiff) as (m & l & Hres).
  { intros [_ Hgrads]. injection Hzero as <-. injection Hsched as <- _.
    vm_compute in Hgrads. discriminate Hgrads. }
  destruct (Hok m l Hres) as (Hone & _ & _ & Hraw & _).
  exists m, l. split; [exact Hres|]. split; [|exact Hraw].
  apply Hone. split; reflexivity.
Defined.

(** The coalesced all-reduce on the sample module: the flagged
    gradient [[1; 2]] is doubled in place, the weight's is not touched. *)
Example allreduce_sequence_parallel_gradients_sample :
  allreduce_sequence_parallel_gradients Samples.all_reduce_doubling false
    (Single Samples.module_ln_w)
  = ([call_all_reduce [1; 2] tensor_model_parallel_group],
     Ok (Single [ {| sequence_parallel_enabled := true;
                     grad := [2; 4]; main_grad := [10; 20] |};
                  {| sequence_parallel_enabled := false;
                     grad := [3; 4; 5]; main_grad := [30; 40; 50] |} ])).
Proof. reflexivity. Qed.




Lemma training_step_skips_batch_size_check_witness :
  let self := Samples.self_of Samples.cfg_default false false in
  let ps := Samples.rank_of 0 1 2 in
  let out := Samples.sample_step Samples.returning self ps (Samples.batch_of 14) in
  (∃ b,
     training_batch_for_pipeline ps (Samples.batch_of 14) = Ok b
     ∧ call_fwd_bwd_function forward_backward_no_pipelining (schedule_args self b)
       ∈ calls out)
  ∧ (∃ m l, result out = Ok (m, l))
  ∧ Validation.validation_step Samples.forward_two_losses Samples.cfg_default ps
      (Samples.batch_of 14)
    = Raise (NotImplementedError "Please turn on drop_last.").
Proof.
  intros self ps out.
  destruct (training_step_skips_batch_size_check Samples.all_reduce_doubling
              Samples.returning Samples.returning Samples.returning
              Samples.schedule_two_losses Samples.returning Samples.logging
              self ps (Samples.batch_of 14) Samples.forward_two_losses)
    as (_ & (b & Hb & Hcall & _ & Hret) & _ & Hval).
  split; [|split].
  - exists b. split; [exact Hb|]. apply (Hcall (Single Samples.module_ln_w)).
    reflexivity.
  - apply Hret; [|reflexivity].
    apply sample_collaborators_return. intros a. eexists. reflexivity.
  - apply Hval. reflexivity.
Defined.

End OnSamples.

(** * Further properties *)

(** ** The constructor's outcome *)
Section ConstructionOutcome.
Import Construction Schedule.
Context {M : Type}.
Variable Float16Module : M → M.

Lemma select_autocast_dtype_cases (p : PrecisionValue) :
  select_autocast_dtype p
  = if decide (p = PInt 32) then Ok torch_float
    else if decide (p = PInt 16) then Ok torch_half
    else if decide (p = PStr "bf16") then Ok torch_bfloat16
    else Raise (ValueError precision_must_be_32_16_bf16).
Proof.
  unfold select_autocast_dtype.
  repeat match goal with
         | |- context [match ?x with _ => _ end] => is_var x; destruct x
         end;
    repeat case_decide; first [done | congruence].
Qed.

Lemma select_autocast_dtype_Ok (p : PrecisionValue) :
  (∃ d, select_autocast_dtype p = Ok d) ↔ p ∈ [PInt 32; PInt 16; PStr "bf16"].
Proof.
  rewrite select_autocast_dtype_cases, !elem_of_cons, elem_of_nil.
  repeat case_decide; split; intros Hp; eauto; try tauto.
  by destruct Hp.
Qed.

(** X1.  The constructor returns a model only if apex was imported, the
    base constructor returned, the trainer does not accumulate gradients
    over batches, O2 is on or the virtual pipeline size is falsy,
    [build_model] returned a module to take when no virtual pipeline size
    is set, and the trainer's precision is 32, 16 or "bf16".  The checks
    made before [build_model] is called raise in this order: the
    [ImportError] without apex, the base constructor's exception, the
    [ValueError] on accumulated gradient batches, the [ValueError] of the
    virtual-pipeline guard. *)
Theorem init_returns_only_if (cfg : Cfg) (env : Env M) :
  (∀ built, init Float16Module cfg env = Ok built →
     HAVE_APEX env = true
     ∧ super_init env = Ok tt
     ∧ accumulate_grad_batches (trainer env) ≤ 1
     ∧ (get (megatron_amp_O2 cfg) false = true
        ∨ truthy (virtual_pipeline_model_parallel_size cfg) = false)
     ∧ (virtual_pipeline_model_parallel_size cfg = None → build_model env ≠ [])
     ∧ trainer_precision (trainer env) ∈ [PInt 32; PInt 16; PStr "bf16"])
  ∧ (HAVE_APEX env = false → init Float16Module cfg env = Raise ImportError)
  ∧ (HAVE_APEX env = true →
     ∀ e, super_init env = Raise e → init Float16Module cfg env = Raise e)
  ∧ (HAVE_APEX env = true →
     super_init env = Ok tt →
     1 < accumulate_grad_batches (trainer env) →
     init Float16Module cfg env
     = Raise (ValueError accumulate_grad_batches_must_equal_1))
  ∧ (HAVE_APEX env = true →
     super_init env = Ok tt →
     accumulate_grad_batches (trainer env) ≤ 1 →
     get (megatron_amp_O2 cfg) false = false →
     truthy (virtual_pipeline_model_parallel_size cfg) = true →
     init Float16Module cfg env
     = Raise (ValueError virtual_pipeline_requires_megatron_amp_O2)).
Proof.
  unfold init, _validate_trainer.
  split; [|split; [|split; [|split]]].
  - intros built. rewrite <- select_autocast_dtype_Ok.
    destruct (HAVE_APEX env); cbn; [|done].
    destruct (super_init env) as [[]|e]; cbn; [|done].
    destruct (Z.ltb_spec 1 (accumulate_grad_batches (trainer env))); cbn; [done|].
    destruct (get (megatron_amp_O2 cfg) false) eqn:Ho2,
             (truthy (virtual_pipeline_model_parallel_size cfg)) eqn:Hv; cbn;
      try done.
    all: destruct (virtual_pipeline_model_parallel_size cfg) as [v|] eqn:Hvpp;
      [|destruct (build_model env) as [|m ms] eqn:Hb]; cbn; try done.
    all: destruct (select_autocast_dtype (trainer_precision (trainer env)))
           as [d|e]; cbn; try done.
    all: intros _; repeat split; eauto; done.
  - by intros ->.
  - by intros -> e ->.
  - intros -> -> Hacc. cbn.
    destruct (Z.ltb_spec 1 (accumulate_grad_batches (trainer env))); [done|lia].
  - intros -> -> Hacc -> ->. cbn.
    destruct (Z.ltb_spec 1 (accumulate_grad_batches (trainer env))); [lia|done].
Qed.

(** X2.  On a constructed model the representation follows the
    configuration: a list of all the stages [build_model] returned when
    the virtual pipeline size is set, one module otherwise.  The
    interleaved schedule is therefore only ever selected for a list and
    the pipelined schedule without interleaving for a single module, while
    the schedule without pipelining can meet either; with O2 every module
    is wrapped in [Float16Module], and a list built for a non-zero virtual
    pipeline size always has O2 on. *)
Theorem constructed_model_matches_schedule (cfg : Cfg) (env : Env M) built :
  init Float16Module cfg env = Ok built →
  let wrap := if megatron_amp_o2 built then Float16Module else id in
  megatron_amp_o2 built = get (megatron_amp_O2 cfg) false
  ∧ (∀ v, virtual_pipeline_model_parallel_size cfg = Some v →
          model built = Stages (wrap <$> build_model env)
          ∧ (v ≠ 0 → megatron_amp_o2 built = true))
  ∧ (virtual_pipeline_model_parallel_size cfg = None →
     ∃ m rest, build_model env = m :: rest ∧ model built = Single (wrap m))
  ∧ (_get_fwd_bwd_function cfg = _forward_backward_pipelining_with_interleaving →
     ∃ ms, model built = Stages ms ∧ length ms = length (build_model env))
  ∧ (_get_fwd_bwd_function cfg = forward_backward_pipelining_without_interleaving →
     ∃ m, model built = Single m).
Proof.
  unfold init, _validate_trainer, _get_fwd_bwd_function.
  destruct (HAVE_APEX env); cbn; [|done].
  destruct (super_init env) as [[]|e]; cbn; [|done].
  destruct (1 <? accumulate_grad_batches (trainer env)); cbn; [done|].
  destruct (get (megatron_amp_O2 cfg) false) eqn:Ho2,
           (virtual_pipeline_model_parallel_size cfg) as [v|] eqn:Hvpp; cbn.
  4: destruct (build_model env) as [|m ms] eqn:Hb; cbn; [done|].
  2: destruct (build_model env) as [|m ms] eqn:Hb; cbn; [done|].
  3: destruct (Z.eqb_spec v 0); cbn; [|done].
  all: destruct (select_autocast_dtype (trainer_precision (trainer env))) as [d|err];
    cbn; [|done]; intros [= <-]; cbn.
  all: destruct (1 <? get (pipeline_model_parallel_size cfg) 1); cbn.
  all: repeat split; try done; try (intros ? [= <-]); try (intros [= <-]);
    eauto; try done.
  all: try (intros _; eexists; split; [reflexivity|]; by rewrite ?length_fmap).
  all: try (by rewrite list_fmap_id).
  all: intros; simplify_eq.
Qed.

End ConstructionOutcome.

(** ** Coalescing and scattering gradients *)
Section CoalesceScatter.
Import GradSync Optimizers.
Local Open Scope nat_scope.
Context {T : Type}.
Implicit Types (m : list (Param T)) (ms : list (list (Param T))).
Implicit Types (grads : list (list T)).

Lemma unflatten_from_middle (pre suf : list T) grads :
  unflatten_from (length pre) (pre ++ concat grads ++ suf) grads = grads.
Proof.
  revert pre. induction grads as [|g grads IH]; intros pre; cbn; [done|].
  rewrite drop_app_length, <- app_assoc, take_app_length. f_equal.
  specialize (IH (pre ++ g)). rewrite length_app, <- !app_assoc in IH. exact IH.
Qed.

Lemma unflatten_from_sizes (offset : nat) (flat : list T) grads grads' :
  length <$> grads = length <$> grads' →
  unflatten_from offset flat grads = unflatten_from offset flat grads'.
Proof.
  revert offset grads'. induction grads as [|g grads IH]; intros offset [|g' grads'] H;
    cbn in *; try done.
  injection H as Hg Hrest. rewrite Hg. f_equal. by apply IH.
Qed.

Lemma concat_fmap_fmap (f : T → T) grads :
  concat (fmap (M:=list) f <$> grads) = f <$> concat grads.
Proof.
  induction grads as [|g grads IH]; cbn; [done|]. by rewrite fmap_app, IH.
Qed.

Lemma copy_back_module_flagged (g : list T → list T) o2 m (rest : list (list T)) :
  copy_back_module o2 m ((g <$> flagged_grads o2 m) ++ rest)
  = (map_flagged_param g o2 <$> m, rest).
Proof.
  induction m as [|p m IH]; cbn; [done|]. unfold map_flagged_param at 1.
  destruct (sequence_parallel_enabled p); cbn; by rewrite IH.
Qed.

Lemma copy_back_modules_flagged (g : list T → list T) o2 ms (rest : list (list T)) :
  copy_back_modules o2 ms ((g <$> concat (map (flagged_grads o2) ms)) ++ rest)
  = fmap (M:=list) (fmap (M:=list) (map_flagged_param g o2)) ms.
Proof.
  revert rest. induction ms as [|m ms IH]; intros rest; cbn; [done|].
  rewrite fmap_app, <- app_assoc, copy_back_module_flagged. by rewrite IH.
Qed.

(** Unflattening the flattened buffer against the tensors it was built
    from gives the tensors back. *)
Lemma unflatten_flatten (tensors : list (list T)) (flat : list T) :
  _flatten_dense_tensors tensors = Ok flat →
  _unflatten_dense_tensors flat tensors = tensors.
Proof.
  rewrite _flatten_dense_tensors_cases. unfold _unflatten_dense_tensors.
  pose proof (unflatten_from_middle [] [] tensors) as H.
  rewrite app_nil_r in H. destruct tensors; [done|]. by intros [= <-].
Qed.

(** Copying back the views of a buffer reduced entry by entry applies
    the reduction to every flagged buffer. *)
Lemma copy_back_elementwise (f : T → T) o2 (model : Model (list (Param T))) :
  let grads := collect_grads o2 model in
  copy_back o2 model (_unflatten_dense_tensors (f <$> concat grads) grads)
  = map_flagged (fmap (M:=list) f) o2 model.
Proof.
  intros grads. unfold _unflatten_dense_tensors.
  assert (Hun : unflatten_from 0 (f <$> concat grads) grads = fmap (M:=list) f <$> grads).
  { rewrite <- concat_fmap_fmap.
    rewrite (unflatten_from_sizes _ _ grads (fmap (M:=list) f <$> grads)).
    - pose proof (unflatten_from_middle [] [] (fmap (M:=list) f <$> grads)) as H.
      by rewrite app_nil_r in H.
    - rewrite <- list_fmap_compose. apply list_fmap_ext. intros ? g _. cbn.
      by rewrite length_fmap. }
  rewrite Hun. subst grads. destruct model as [m|ms]; cbn [copy_back map_flagged].
  - rewrite collect_grads_single.
    pose proof (copy_back_module_flagged (fmap (M:=list) f) o2 m []) as H.
    rewrite app_nil_r in H. by rewrite H.
  - rewrite collect_grads_stages.
    pose proof (copy_back_modules_flagged (fmap (M:=list) f) o2 ms []) as H.
    rewrite app_nil_r in H. by rewrite H.
Qed.

(** X3.  The gradients the sequence-parallel all-reduce coalesces are
    those of the flagged parameters among [self.parameters()], in that
    order, whether the model is one module or a list of stages; a list of
    one stage coalesces what the single module does. *)
Theorem collect_grads_parameters o2 (model : Model (list (Param T))) :
  collect_grads o2 model = flagged_grads o2 (parameters model)
  ∧ length (collect_grads o2 model)
    = length (filter (λ p, sequence_parallel_enabled p = true) (parameters model))
  ∧ ∀ m, collect_grads o2 (Stages [m]) = collect_grads o2 (Single m).
Proof.
  assert (Hlen : ∀ m, length (flagged_grads o2 m)
                      = length (filter (λ p, sequence_parallel_enabled p = true) m)).
  { induction m as [|p m IH]; [done|]. rewrite filter_cons. cbn [flagged_grads].
    destruct (sequence_parallel_enabled p) eqn:Hp; case_decide; try done;
      cbn; by rewrite IH. }
  pose proof (collect_grads_flagged_parameters o2 model) as Heq.
  split; [exact Heq|]. split; [by rewrite Heq, Hlen|].
  intros m. rewrite collect_grads_stages, collect_grads_single. cbn.
  by rewrite app_nil_r.
Qed.

Variable all_reduce : Group → list T → Result (list T).

(** X4.  When the collective returns the buffer reduced entry by entry
    and some parameter is flagged, the sequence-parallel all-reduce makes
    one collective, on the coalesced buffers of the flagged parameters,
    applies that reduction to the selected buffer of every flagged
    parameter and leaves every other parameter and buffer as it is; with
    the identity (nothing to add from the peers) the model comes back
    unchanged.  When no parameter is flagged it raises while flattening,
    before any collective. *)
Theorem allreduce_sequence_parallel_gradients_elementwise
    (f : T → T) o2 (model : Model (list (Param T))) :
  (∀ buffer, all_reduce tensor_model_parallel_group buffer = Ok (f <$> buffer)) →
  let flagged :=
    filter (λ p, sequence_parallel_enabled p = true) (parameters model) in
  (flagged ≠ [] →
   allreduce_sequence_parallel_gradients all_reduce o2 model
   = ([call_all_reduce (concat (selected_grad o2 <$> flagged))
         tensor_model_parallel_group],
      Ok (map_flagged (fmap (M:=list) f) o2 model))
   ∧ ((∀ x, f x = x) →
      result (allreduce_sequence_parallel_gradients all_reduce o2 model) = Ok model))
  ∧ (flagged = [] →
     allreduce_sequence_parallel_gradients all_reduce o2 model
     = ([], Raise empty_tensor_list)).
Proof.
  intros Hf. cbn zeta.
  rewrite (allreduce_sequence_parallel_gradients_cases all_reduce). cbn zeta.
  pose proof (copy_back_elementwise f o2 model) as Hcb. cbn zeta in Hcb.
  rewrite collect_grads_sequence_parallel_grads in Hcb.
  unfold sequence_parallel_grads in *.
  destruct (filter _ (parameters model)) as [|p flagged]; cbn [fmap list_fmap].
  { split; [done|]. reflexivity. }
  split; [|done]. intros _. rewrite Hf.
  cbn [fmap list_fmap] in Hcb. rewrite Hcb.
  split; [reflexivity|].
  intros Hid. cbn [result snd]. f_equal.
  assert (Hp : ∀ p : Param T, map_flagged_param (fmap (M:=list) f) o2 p = p).
  { intros [flag g mg]. unfold map_flagged_param, copy_, selected_grad. cbn.
    assert (Hfm : ∀ l : list T, f <$> l = l).
    { intros l. rewrite <- (list_fmap_id l) at 2. apply list_fmap_ext. intros; apply Hid. }
    destruct flag, o2; cbn; by rewrite ?Hfm. }
  assert (Hm : ∀ m, fmap (M:=list) (map_flagged_param (fmap (M:=list) f) o2) m = m).
  { intros m. rewrite <- (list_fmap_id m) at 2. apply list_fmap_ext. intros; apply Hp. }
  destruct model as [m|ms]; cbn [map_flagged]; f_equal; [apply Hm|].
  rewrite <- (list_fmap_id ms) at 2. apply list_fmap_ext. intros; apply Hm.
Qed.

End CoalesceScatter.

(** ** [configure_optimizers] *)
Section ConfigureOptimizers.
Import GradSync Optimizers.
Context {T : Type}.

Lemma parameters_mark_parameters (o2 : bool) (model : Model (list (OptParam T))) :
  parameters (mark_parameters o2 model) = configure_param o2 <$> parameters model.
Proof.
  destruct model as [m|ms]; cbn; [done|].
  induction ms as [|m ms IH]; cbn; [done|]. by rewrite fmap_app, IH.
Qed.

Lemma parameters_grad_view (model : Model (list (OptParam T))) :
  parameters (grad_view model) = param <$> parameters model.
Proof.
  destruct model as [m|ms]; cbn; [done|].
  induction ms as [|m ms IH]; cbn; [done|]. by rewrite fmap_app, IH.
Qed.

Lemma param_configure_param (o2 : bool) (p : OptParam T) :
  param (configure_param o2 p) = param p.
Proof. unfold configure_param. by destruct (sequence_parallel_enabled (param p)). Qed.

(** The stage lookups before the loop fail on an empty list of stages,
    and only there. *)
Lemma configure_optimizers_cases (ps : parallel_state.t) (o2 : bool)
    (model : Model (list (OptParam T))) :
  configure_optimizers ps true o2 model
  = if (1 <? parallel_state.get_pipeline_model_parallel_world_size ps)
       && (parallel_state.is_pipeline_first_stage true ps
           || parallel_state.is_pipeline_last_stage true ps)
       && match model with Stages [] => true | _ => false end
    then Raise IndexError
    else Ok (mark_parameters o2 model).
Proof.
  unfold configure_optimizers.
  destruct (1 <? _); [|done].
  destruct (parallel_state.is_pipeline_first_stage true ps),
           (parallel_state.is_pipeline_last_stage true ps);
    destruct model as [m|[|m ms]]; try done.
  all: cbn [first_module last_module andb orb].
  all: destruct (last (m :: ms)) eqn:Hlast; [done|].
  all: by apply last_None in Hlast.
Qed.

(** X5.  Under the distributed optimizer [configure_optimizers] first
    looks up the embedding module on the first and on the last stage of a
    pipeline deeper than 1, which raises [IndexError] on an empty list of
    stages.  Otherwise it reaches the base class having switched
    overlapped gradient synchronisation off for exactly the parameters
    whose gradients the sequence-parallel all-reduce coalesces, and set
    their greedy-copy switch to the negation of O2; gradients and flags
    are not touched, and a second call changes nothing.  Under the
    standard optimizer the call changes nothing at all. *)
Theorem configure_optimizers_marks_reduced_parameters
    (ps : parallel_state.t) (o2 : bool) (model : Model (list (OptParam T))) :
  Forall (λ p, _disable_overlap_grad_sync p = None) (parameters model) →
  let lookup_fails :=
    1 < parallel_state.get_pipeline_model_parallel_world_size ps
    ∧ (parallel_state.is_pipeline_first_stage true ps = true
       ∨ parallel_state.is_pipeline_last_stage true ps = true)
    ∧ model = Stages [] in
  (lookup_fails → configure_optimizers ps true o2 model = Raise IndexError)
  ∧ (¬ lookup_fails →
     ∃ configured,
       configure_optimizers ps true o2 model = Ok configured
       ∧ overlap_disabled_grads o2 (parameters configured)
         = collect_grads o2 (grad_view model)
       ∧ grad_view configured = grad_view model
       ∧ Forall (λ p, _disable_overlap_grad_sync p = Some true →
                      _disable_greedy_grad_copy p = Some (negb o2))
           (parameters configured)
       ∧ configure_optimizers ps true o2 configured = Ok configured)
  ∧ configure_optimizers ps false o2 model = Ok model.
Proof.
  intros Hfresh. cbn zeta.
  assert (Hview : ∀ l : list (OptParam T),
            fmap (M:=list) param (fmap (M:=list) (configure_param o2) l)
            = fmap (M:=list) param l).
  { intros l. rewrite <- list_fmap_compose. apply list_fmap_ext.
    intros ? p _. apply param_configure_param. }
  assert (Hidem : ∀ l : list (OptParam T),
            fmap (M:=list) (configure_param o2) (fmap (M:=list) (configure_param o2) l)
            = fmap (M:=list) (configure_param o2) l).
  { intros l. rewrite <- list_fmap_compose. apply list_fmap_ext.
    intros ? p _. cbn. unfold configure_param.
    destruct (sequence_parallel_enabled (param p)) eqn:Hp; cbn; by rewrite Hp. }
  assert (Hmark : mark_parameters o2 (mark_parameters o2 model)
                  = mark_parameters o2 model).
  { destruct model as [m|ms]; cbn; f_equal; [apply Hidem|].
    rewrite <- !list_fmap_compose. apply list_fmap_ext. intros ? l _. apply Hidem. }
  assert (Hempty : mark_parameters o2 model = Stages [] → model = Stages []).
  { destruct model as [m|[|m ms]]; cbn; done. }
  split; [|split; [|done]].
  - intros (Hws & Hstage & ->). rewrite configure_optimizers_cases.
    apply Z.ltb_lt in Hws. rewrite Hws.
    by destruct Hstage as [->| ->]; rewrite ?orb_true_r.
  - intros Hok. exists (mark_parameters o2 model).
    assert (Hcase : ∀ model' : Model (list (OptParam T)),
              (model' = Stages [] → model = Stages []) →
              configure_optimizers ps true o2 model' = Ok (mark_parameters o2 model')).
    { intros model' Himp. rewrite configure_optimizers_cases.
      destruct (Z.ltb_spec 1 (parallel_state.get_pipeline_model_parallel_world_size ps));
        [|done].
      destruct (parallel_state.is_pipeline_first_stage true ps) eqn:Hfirst,
               (parallel_state.is_pipeline_last_stage true ps) eqn:Hlast;
        cbn [andb orb]; try done.
      all: destruct model' as [m'|[|m' ms']]; try done.
      all: exfalso; apply Hok; repeat split; auto. }
    split; [by apply Hcase|]. split; [|split; [|split]].
    + rewrite parameters_mark_parameters.
      rewrite collect_grads_flagged_parameters.
      rewrite parameters_grad_view.
      induction Hfresh as [|p l Hp _ IH]; [done|].
      cbn [fmap list_fmap flagged_grads]. unfold overlap_disabled_grads in *.
      unfold configure_param at 1.
      destruct (sequence_parallel_enabled (param p)) eqn:Hflag.
      * rewrite filter_cons_True by done. cbn [fmap list_fmap param]. by rewrite IH.
      * rewrite filter_cons_False by (rewrite Hp; done). exact IH.
    + destruct model as [m|ms]; cbn; f_equal; [apply Hview|].
      rewrite <- !list_fmap_compose. apply list_fmap_ext. intros ? l _. apply Hview.
    + rewrite parameters_mark_parameters. apply Forall_fmap.
      eapply Forall_impl; [exact Hfresh|]. intros p Hp. cbn. unfold configure_param.
      destruct (sequence_parallel_enabled (param p)); cbn; [done | congruence].
    + rewrite Hcase by exact Hempty. by rewrite Hmark.
Qed.

End ConfigureOptimizers.

(** ** Batch sizes and the callback's inputs *)
Section BatchSizesAndInputs.
Import Batch Setup.

(** X9.  With a positive micro-batch size [setup] fixes a per-rank batch
    of at most the size the validation step expects, and a batch of
    exactly that size passes the validation step's check if and only if
    the micro-batch size divides the floor of global_batch_size over the
    data-parallel world size; otherwise even a full batch raises. *)
Theorem full_batch_passes_validation_iff (cfg : Cfg) (ps : parallel_state.t)
    (sizes : BatchSizes) (gb : GlobalBatch) :
  0 < micro_batch_size cfg →
  setup_batch_sizes cfg ps = Ok sizes →
  shape0 (images gb) = _global_batch_size_on_this_data_parallel_rank sizes →
  let expected :=
    global_batch_size cfg `div` parallel_state.get_data_parallel_world_size ps in
  shape0 (images gb) ≤ expected
  ∧ (validation_batch_for_pipeline cfg ps gb = Ok (Some [images gb; captions gb])
     ↔ expected `mod` micro_batch_size cfg = 0)
  ∧ (expected `mod` micro_batch_size cfg ≠ 0 →
     validation_batch_for_pipeline cfg ps gb
     = Raise (NotImplementedError "Please turn on drop_last.")).
Proof.
  intros Hmbs Hsetup Hshape. cbn zeta.
  unfold setup_batch_sizes, floordiv in Hsetup.
  set (dp := parallel_state.get_data_parallel_world_size ps) in *.
  assert (Hdp : 0 < dp) by (subst dp; unfold parallel_state.get_data_parallel_world_size; lia).
  destruct (Z.eqb_spec (micro_batch_size cfg * dp) 0) as [Hz|_]; [nia|].
  cbn in Hsetup. injection Hsetup as <-. cbn in Hshape.
  set (E := global_batch_size cfg `div` dp) in *.
  assert (Hn : global_batch_size cfg `div` (micro_batch_size cfg * dp)
               = E `div` micro_batch_size cfg).
  { subst E. rewrite Z.mul_comm. symmetry. apply Z.div_div; lia. }
  rewrite Hn in Hshape.
  pose proof (Z.div_mod E (micro_batch_size cfg) ltac:(lia)) as Hdm.
  pose proof (Z.mod_pos_bound E (micro_batch_size cfg) Hmbs) as Hmod.
  unfold validation_batch_for_pipeline. rewrite process_global_batch_checked.
  fold dp. fold E.
  split; [nia|].
  destruct (Z.ltb_spec (shape0 (images gb)) E); cbn.
  - split; [split; [done | nia] | intros; reflexivity].
  - split; [split; [nia | done] | nia].
Qed.

Lemma first_stage_ignore_virtual (ps : parallel_state.t) :
  parallel_state.is_pipeline_first_stage false ps = true →
  parallel_state.is_pipeline_first_stage true ps = true.
Proof.
  unfold parallel_state.is_pipeline_first_stage. cbn.
  destruct (is_not_None _ && _); [done|]. by intros.
Qed.

(** X10.  On a rank inside its pipeline, the forward callback never fails
    on a micro-batch cut from what [training_step] partitioned: whenever
    it reads the raw tensors (a pipeline of one stage, or the first
    stage) the rank was given them, and it passes [(None, None)] to the
    model exactly on the other stages of a deeper pipeline. *)
Theorem forward_callback_finds_its_inputs (ps : parallel_state.t) (gb : GlobalBatch) :
  0 ≤ parallel_state.pipeline_model_parallel_rank ps
    < parallel_state.get_pipeline_model_parallel_world_size ps →
  ∃ b,
    training_batch_for_pipeline ps gb = Ok b
    ∧ ∀ micro_batch,
        Shapes.micro_batch_of b micro_batch →
        ∃ inputs,
          fwd_output_and_loss_func ps micro_batch = Ok inputs
          ∧ (inputs = (None, None)
             ↔ 1 < parallel_state.get_pipeline_model_parallel_world_size ps
               ∧ parallel_state.is_pipeline_first_stage false ps = false).
Proof.
  intros Hrank. unfold training_batch_for_pipeline.
  rewrite process_global_batch_unchecked. unfold fwd_output_and_loss_func.
  destruct (Z.eqb_spec (parallel_state.get_pipeline_model_parallel_world_size ps) 1)
    as [Hone|Hdeep].
  - assert (Hfirst : parallel_state.is_pipeline_first_stage true ps = true).
    { unfold parallel_state.is_pipeline_first_stage. cbn. apply Z.eqb_eq. lia. }
    rewrite Hfirst. cbn. eexists. split; [reflexivity|].
    intros [[|i [|c [|? ?]]]|] Hmb; cbn in Hmb; try done.
    eexists. split; [reflexivity|]. split; [done | lia].
  - destruct (parallel_state.is_pipeline_first_stage false ps) eqn:Hvfirst.
    + rewrite (first_stage_ignore_virtual ps Hvfirst). cbn.
      eexists. split; [reflexivity|].
      intros [[|i [|c [|? ?]]]|] Hmb; cbn in Hmb; try done.
      eexists. split; [reflexivity|]. split; [done | intros [_ ?]; done].
    + destruct (_ || _); cbn; eexists; (split; [reflexivity|]);
        intros mb _; eexists; (split; [reflexivity|]); split; try done; lia.
Qed.

End BatchSizesAndInputs.

(** ** Validation metrics over whole steps *)
Section ValidationOverSteps.
Import Validation Shapes.
Local Open Scope Qc_scope.

Lemma foldl_Qcplus (a : Qc) (l : list Qc) :
  foldl Qcplus a l = a + foldr Qcplus 0 l.
Proof.
  revert a. induction l as [|x l IH]; intros a; cbn; [ring|]. rewrite IH. ring.
Qed.

Lemma stride2_flatten_pairs (pairs : list (Qc * Qc)) :
  stride2 (flatten_pairs pairs) = fst <$> pairs
  ∧ stride2 (tail (flatten_pairs pairs)) = snd <$> pairs.
Proof.
  induction pairs as [|[l s] pairs [IH1 IH2]]; [done|].
  unfold flatten_pairs in *. cbn in *. rewrite IH1. split; [done|].
  destruct pairs as [|[l' s'] pairs]; [done|]. cbn in *. by rewrite IH2.
Qed.

Lemma weighted_sum_app (a b : list (Qc * Qc)) :
  weighted_sum (a ++ b) = weighted_sum a + weighted_sum b
  ∧ total_size (a ++ b) = total_size a + total_size b.
Proof.
  unfold weighted_sum, total_size.
  induction a as [|p a [IH1 IH2]]; cbn [app foldr].
  - split; ring.
  - rewrite IH1, IH2. split; ring.
Qed.

Lemma accumulate_flatten_pairs (n t : Qc) (pairs : list (Qc * Qc)) :
  accumulate (n, t) (flatten_pairs pairs)
  = Ok (n + total_size pairs, t + weighted_sum pairs).
Proof.
  unfold accumulate. destruct (stride2_flatten_pairs pairs) as [-> ->].
  unfold np_dot, builtin_sum. rewrite !length_fmap, Nat.eqb_refl. cbn.
  rewrite !foldl_Qcplus, !Qcplus_0_l.
  assert (Hsz : foldr Qcplus 0 (snd <$> pairs) = total_size pairs).
  { unfold total_size. induction pairs as [|[l s] pairs IH]; cbn; [reflexivity|].
    f_equal. exact IH. }
  assert (Hws : foldr Qcplus 0 (zip_with Qcmult (fst <$> pairs) (snd <$> pairs))
                = weighted_sum pairs).
  { clear. unfold weighted_sum. induction pairs as [|[l s] pairs IH]; cbn; [reflexivity|].
    f_equal. exact IH. }
  by rewrite Hsz, Hws.
Qed.

(** X11.  Handed the (loss, size) pairs of whole steps, each step as one
    flattened array, [_get_average_metric] returns the size-weighted
    average over all pairs of all steps, provided there is a step and the
    sizes do not sum to zero. *)
Theorem _get_average_metric_over_steps (steps : list (list (Qc * Qc))) :
  steps ≠ [] →
  total_size (concat steps) ≠ 0 →
  _get_average_metric (flatten_pairs <$> steps)
  = Ok (finite (weighted_average (concat steps))).
Proof.
  intros Hne Hsz.
  assert (Hacc : ∀ n t, accumulate_all (n, t) (flatten_pairs <$> steps)
                        = Ok (n + total_size (concat steps),
                              t + weighted_sum (concat steps))).
  { clear. induction steps as [|s steps IH]; intros n t.
    - cbn. do 2 f_equal; ring.
    - cbn [fmap list_fmap accumulate_all concat].
      rewrite accumulate_flatten_pairs. cbn [mbind result_bind]. rewrite IH.
      destruct (weighted_sum_app s (concat steps)) as [-> ->].
      do 2 f_equal; ring. }
  unfold _get_average_metric. rewrite Hacc. cbn [mbind result_bind].
  destruct steps as [|s steps]; [done|]. cbn [fmap list_fmap].
  rewrite !Qcplus_0_l.
  destruct (Qeq_bool (total_size (concat (s :: steps))) 0) eqn:Hz.
  - exfalso. apply Hsz, Qc_is_canon. apply Qeq_bool_iff in Hz. exact Hz.
  - reflexivity.
Qed.

Lemma mapM_first_steps (cfg : Cfg) (steps : list (Qc * list Qc)) :
  mapM first ((λ s, _get_metric_with_batch_size cfg (s.1 :: s.2)) <$> steps)
  = Ok (as_array <$> ((λ s, (s.1, Qc_of_Z (micro_batch_size cfg))) <$> steps)).
Proof.
  induction steps as [|s steps IH]; [done|].
  cbn [fmap list_fmap mapM]. cbn [fmap list_fmap mapM] in IH. rewrite IH. done.
Qed.

(** X12.  On the last pipeline stage, with a non-zero micro-batch size,
    the validation metric of an epoch is the plain mean of the first
    micro-batch loss of every validation step; it is the mean of all the
    losses when every step ran a single micro-batch. *)
Theorem validation_epoch_end_mean_of_first_losses (cfg : Cfg) (ps : parallel_state.t)
    (steps : list (Qc * list Qc)) :
  parallel_state.is_pipeline_last_stage false ps = true →
  steps ≠ [] →
  micro_batch_size cfg ≠ 0%Z →
  validation_epoch_end ps
    ((λ s, _get_metric_with_batch_size cfg (s.1 :: s.2)) <$> steps)
  = Ok (Some (finite (mean (fst <$> steps))))
  ∧ (Forall (λ s, s.2 = []) steps →
     validation_epoch_end ps
       ((λ s, _get_metric_with_batch_size cfg (s.1 :: s.2)) <$> steps)
     = Ok (Some (finite (mean (concat ((λ s, s.1 :: s.2) <$> steps)))))).
Proof.
  intros Hlast Hne Hmbs.
  assert (Hall : Forall (λ s, s.2 = []) steps →
                 fst <$> steps = concat ((λ s, s.1 :: s.2) <$> steps)).
  { clear. intros Hone. induction Hone as [|[l rest] steps' Hrest _ IH]; [done|].
    cbn in *. subst rest. cbn. f_equal. exact IH. }
  assert (Hfirst : validation_epoch_end ps
                     ((λ s, _get_metric_with_batch_size cfg (s.1 :: s.2)) <$> steps)
                   = Ok (Some (finite (mean (fst <$> steps)))));
    [|split; [exact Hfirst|intros Hone; by rewrite <- (Hall Hone)]].
  - unfold validation_epoch_end. rewrite Hlast.
    destruct steps as [|s0 steps0] eqn:Hsteps; [done|]. rewrite <- Hsteps.
    assert (Hout : (λ s, _get_metric_with_batch_size cfg (s.1 :: s.2)) <$> (s0 :: steps0)
                   ≠ []) by done.
    rewrite <- Hsteps in Hout.
    destruct ((λ s, _get_metric_with_batch_size cfg (s.1 :: s.2)) <$> steps)
      as [|o os] eqn:Ho; [done|]. rewrite <- Ho.
    rewrite mapM_first_steps. cbn [mbind result_bind].
    set (m := Qc_of_Z (micro_batch_size cfg)).
    assert (Hm : m ≠ 0).
    { subst m. rewrite <- Z2Qc_inj_0. intros H%Z2Qc_inj. done. }
    set (pairs := (λ s : Qc * list Qc, (s.1, m)) <$> steps).
    assert (Hsum : weighted_sum pairs = foldr Qcplus 0 (fst <$> steps) * m
                   ∧ total_size pairs = Qc_of_Z (Z.of_nat (length steps)) * m).
    { subst pairs. clear. unfold weighted_sum, total_size.
      induction steps as [|s steps [IH1 IH2]].
      - cbn [fmap list_fmap foldr length]. change (Z.of_nat 0) with 0%Z.
        rewrite Z2Qc_inj_0. split; ring.
      - cbn [fmap list_fmap foldr length fst snd].
        rewrite IH1, IH2, Nat2Z.inj_succ, <- Z.add_1_r, Z2Qc_inj_add, Z2Qc_inj_1.
        split; ring. }
    destruct Hsum as [Hws Hts].
    assert (Hn : Qc_of_Z (Z.of_nat (length steps)) ≠ 0).
    { rewrite <- Z2Qc_inj_0. intros H%Z2Qc_inj. rewrite Hsteps in H. done. }
    rewrite _get_average_metric_weighted.
    + cbn [mbind result_bind]. do 3 f_equal. unfold weighted_average, mean.
      rewrite Hws, Hts, length_fmap. field. split; assumption.
    + subst pairs. rewrite Hsteps. done.
    + rewrite Hts. intros H. apply Qcmult_integral in H. by destruct H.
Qed.

End ValidationOverSteps.

(** ** Saving and loading back *)
Section CheckpointRoundTrip.
Import Checkpoint.
Local Open Scope nat_scope.
Context {M SD : Type}.
Variable state_dict_for_save_checkpoint : parallel_state.t → M → SD.
Variable load_state_dict_strict : parallel_state.t → M → SD → M * option Exception.


End CheckpointRoundTrip.

(** ** Checkpoint hooks of a constructed model *)
Section HooksOfConstructedModel.
Import Construction Checkpoint.
Context {M SD : Type}.
Variable Float16Module : M → M.
Variable state_dict_for_save_checkpoint : parallel_state.t → M → SD.
Variable load_state_dict_strict : parallel_state.t → M → SD → M * option Exception.


End HooksOfConstructedModel.

(** ** The further properties on the sample data *)
Section FurtherOnSamples.
Import Construction Schedule Batch GradSync Optimizers Validation Checkpoint.

Lemma constructed_model_matches_schedule_witness :
  let cfg := MoreSamples.with_O2 (Samples.with_pipeline 4 (Some 2) Samples.cfg_default) in
  let built := {| Construction.megatron_amp_o2 := true;
                  Construction.model := Stages [7%nat; 8%nat];
                  Construction.autocast_dtype := torch_float |} in
  init id cfg (Samples.env_of [7%nat; 8%nat]) = Ok built
  ∧ ∃ ms, Construction.model built = Stages ms ∧ length ms = 2%nat.
Proof.
  intros cfg built.
  assert (Hinit : init id cfg (Samples.env_of [7%nat; 8%nat]) = Ok built) by reflexivity.
  split; [exact Hinit|].
  destruct (constructed_model_matches_schedule id cfg (Samples.env_of [7%nat; 8%nat])
              built Hinit) as (_ & _ & _ & Hlist & _).
  apply Hlist. reflexivity.
Defined.

Lemma init_returns_only_if_witness :
  init id Samples.cfg_default
    {| HAVE_APEX := true; super_init := Ok tt;
       trainer := {| accumulate_grad_batches := 2; trainer_precision := PInt 32 |};
       build_model := [7%nat] |}
  = Raise (ValueError accumulate_grad_batches_must_equal_1).
Proof.
  destruct (init_returns_only_if id Samples.cfg_default
              {| HAVE_APEX := true; super_init := Ok tt;
                 trainer := {| accumulate_grad_batches := 2;
                               trainer_precision := PInt 32 |};
                 build_model := [7%nat] |})
    as (_ & _ & _ & Hacc & _).
  apply Hacc; reflexivity.
Defined.

Lemma allreduce_sequence_parallel_gradients_elementwise_witness :
  allreduce_sequence_parallel_gradients Samples.all_reduce_doubling false
    (Single Samples.module_ln_w)
  = ([call_all_reduce [1; 2] tensor_model_parallel_group],
     Ok (map_flagged (fmap (M:=list) (Z.mul 2)) false (Single Samples.module_ln_w)))
  ∧ allreduce_sequence_parallel_gradients Samples.all_reduce_doubling false
      (Single Samples.module_w)
    = ([], Raise empty_tensor_list).
Proof.
  destruct (allreduce_sequence_parallel_gradients_elementwise
              Samples.all_reduce_doubling (Z.mul 2) false (Single Samples.module_ln_w))
    as [Hsome _]; [intros buffer; reflexivity|].
  destruct (allreduce_sequence_parallel_gradients_elementwise
              Samples.all_reduce_doubling (Z.mul 2) false (Single Samples.module_w))
    as [_ Hnone]; [intros buffer; reflexivity|].
  split.
  - apply Hsome. vm_compute. discriminate.
  - apply Hnone. reflexivity.
Defined.

Lemma configure_optimizers_marks_reduced_parameters_witness :
  (∃ configured,
     configure_optimizers (Samples.rank_of 0 1 1) true true
       (Single MoreSamples.fresh_opt_module) = Ok configured
     ∧ overlap_disabled_grads true (parameters configured) = [[10; 20]])
  ∧ configure_optimizers (Samples.rank_of 0 2 1) true true
      (Stages (@nil (list (OptParam Z)))) = Raise IndexError.
Proof.
  split.
  - destruct (configure_optimizers_marks_reduced_parameters (Samples.rank_of 0 1 1)
                true (Single MoreSamples.fresh_opt_module))
      as (_ & Hok & _); [repeat constructor|].
    destruct Hok as (configured & Hconf & Hgrads & _).
    { intros (Hws & _). vm_compute in Hws. discriminate Hws. }
    exists configured. split; [exact Hconf|]. rewrite Hgrads. reflexivity.
  - destruct (configure_optimizers_marks_reduced_parameters (Samples.rank_of 0 2 1)
                true (Stages (@nil (list (OptParam Z)))))
      as (Hfail & _); [constructor|].
    apply Hfail. split; [reflexivity|]. split; [left; reflexivity | reflexivity].
Defined.

Lemma training_step_call_order_witness :
  let self := Samples.self_of Samples.cfg_default true false in
  let out := Samples.sample_step Samples.broadcast_of_5 self
               (Samples.rank_of 0 1 1) (Samples.batch_of 16) in
  ∃ b sp main loss,
    calls out
    = call_optimizer_zero_grad
      :: call_fwd_bwd_function forward_backward_no_pipelining (schedule_args self b)
      :: sp ++ main
      ++ [call_broadcast_from_last_rank loss; call_log (Qc_of_Z 5)]
    ∧ Samples.broadcast_of_5 loss = Ok (Qc_of_Z 5).
Proof.
  intros self out.
  destruct (training_step_call_order Samples.all_reduce_doubling
              Samples.returning Samples.returning Samples.returning
              Samples.schedule_two_losses Samples.broadcast_of_5 Samples.logging
              self (Samples.rank_of 0 1 1) (Samples.batch_of 16))
    as (b & sp & main & loss & returned & _ & _ & _ & _ & _ & _ & _ & _ & Hok).
  exists b, sp, main, loss.
  destruct (Hok (Single Samples.module_ln_w) (Qc_of_Z 5)) as (Hcalls & Hbc & Hret);
    [reflexivity|].
  rewrite Hret in Hcalls. split; [exact Hcalls | exact Hbc].
Defined.

Lemma sync_context_and_allreduce_witness :
  let self := Samples.self_of Samples.cfg_default false false in
  let out := Samples.sample_step Samples.broadcast_of_5 self
               (Samples.rank_of 0 1 1) (Samples.batch_of 16) in
  (count is_main_grads_allreduce (calls out)
   + count is_raw_gradients_allreduce (calls out) = 1)%nat.
Proof.
  intros self out.
  destruct (sync_context_and_allreduce Samples.all_reduce_doubling
              Samples.returning Samples.returning Samples.returning
              Samples.schedule_two_losses Samples.broadcast_of_5 Samples.logging
              self (Samples.rank_of 0 1 1) (Samples.batch_of 16))
    as (b & _ & Hnone & _ & Hok).
  destruct (Hok (Single Samples.module_ln_w) (Qc_of_Z 5)) as (_ & Hcount);
    [reflexivity|].
  apply Hcount. apply Hnone. split; [reflexivity | left; reflexivity].
Defined.

Lemma distributed_step_keeps_schedule_gradients_witness :
  let self := Samples.self_of Samples.cfg_default true false in
  ∃ b,
    Samples.sample_step Samples.broadcast_of_5 self
      (Samples.rank_of 0 1 1) (Samples.batch_of 16)
    = ([call_optimizer_zero_grad;
        call_fwd_bwd_function forward_backward_no_pipelining (schedule_args self b);
        call_broadcast_from_last_rank (mean_loss [Qc_of_Z 2; Qc_of_Z 4]);
        call_log (Qc_of_Z 5)],
       Ok (Single Samples.module_ln_w, Qc_of_Z 5)).
Proof.
  intros self.
  destruct (distributed_step_keeps_schedule_gradients Samples.all_reduce_doubling
              Samples.returning Samples.returning Samples.returning
              Samples.schedule_two_losses Samples.broadcast_of_5 Samples.logging
              self (Samples.rank_of 0 1 1) (Samples.batch_of 16))
    as (_ & b & _ & _ & Hall); [reflexivity | left; reflexivity |].
  exists b.
  apply (Hall (Single Samples.module_ln_w) (Single Samples.module_ln_w)
           [Qc_of_Z 2; Qc_of_Z 4] (Qc_of_Z 5)); reflexivity.
Defined.

Lemma full_batch_passes_validation_iff_witness :
  validation_batch_for_pipeline MoreSamples.cfg_30_8 (Samples.rank_of 0 1 2)
    (Samples.batch_of 8)
  = Raise (NotImplementedError "Please turn on drop_last.").
Proof.
  apply (full_batch_passes_validation_iff MoreSamples.cfg_30_8 (Samples.rank_of 0 1 2)
           {| Setup._num_micro_batches := 1;
              Setup._global_batch_size_on_this_data_parallel_rank := 8 |}
           (Samples.batch_of 8));
    [reflexivity | reflexivity | reflexivity | vm_compute; discriminate].
Defined.

Lemma forward_callback_finds_its_inputs_witness :
  ∃ b,
    training_batch_for_pipeline (Samples.rank_of 0 4 1) (Samples.batch_of 16) = Ok b
    ∧ ∃ inputs,
        fwd_output_and_loss_func (Samples.rank_of 0 4 1)
          (Some [images (Samples.batch_of 4); captions (Samples.batch_of 4)])
        = Ok inputs.
Proof.
  destruct (forward_callback_finds_its_inputs (Samples.rank_of 0 4 1) (Samples.batch_of 16))
    as (b & Hb & Hmb); [split; [vm_compute; discriminate | reflexivity]|].
  exists b. split; [exact Hb|].
  destruct (Hmb (Some [images (Samples.batch_of 4); captions (Samples.batch_of 4)]))
    as (inputs & Hin & _).
  - vm_compute in Hb. injection Hb as <-. reflexivity.
  - exists inputs. exact Hin.
Defined.

Lemma _get_average_metric_over_steps_witness :
  _get_average_metric
    [[Qc_of_Z 2; Qc_of_Z 3; Qc_of_Z 4; Qc_of_Z 1]]
  = Ok (finite (weighted_average [(Qc_of_Z 2, Qc_of_Z 3); (Qc_of_Z 4, Qc_of_Z 1)])).
Proof.
  apply (_get_average_metric_over_steps
           [[(Qc_of_Z 2, Qc_of_Z 3); (Qc_of_Z 4, Qc_of_Z 1)]]).
  - discriminate.
  - intros H. apply (f_equal this) in H. vm_compute in H. discriminate.
Defined.

Lemma validation_epoch_end_mean_of_first_losses_witness :
  validation_epoch_end (Samples.rank_of 0 1 2)
    [_get_metric_with_batch_size Samples.cfg_default [Qc_of_Z 2; Qc_of_Z 4]]
  = Ok (Some (finite (Shapes.mean [Qc_of_Z 2]))).
Proof.
  apply (validation_epoch_end_mean_of_first_losses Samples.cfg_default
           (Samples.rank_of 0 1 2) [(Qc_of_Z 2, [Qc_of_Z 4])]);
    [reflexivity | discriminate | vm_compute; discriminate].
Defined.



End FurtherOnSamples.
